(** * LiveTL: the relay (MCHAD) timeline and the chat classifier

    A shallow embedding of [src/js/mchad.js] and [src/js/sources.js].

    Conventions of the embedding.
    - A JavaScript string is the sequence of its code units; the strings
      handled here are those whose code units are below 256, one [ascii]
      per code unit.
    - [null] and [undefined] are [None]; a thrown [TypeError] is an explicit
      outcome.
    - Integers that the code keeps in a Number (timestamps, counters, role
      bit sets) are in [Z]: the embedding is exact as long as they stay
      inside the range a Number represents exactly.  The operators [&]
      and [|] work on the low 32 bits, as in the language.  The one place
      where the source can leave the integers ([Math.pow (60, 2 - i)]
      with [i > 2]) is embedded over the rationals [Q].
    - Functions imported from modules that are not part of the two files
      ([filter.js], [constants.js], [store.js], [utils.js]) are Section
      variables, or are modelled from the specification where a statement
      needs their result; every such model says so. *)

From Stdlib Require Import ZArith QArith String Ascii List Lia Bool.
From Stdlib Require Import DecimalString FinFun.
From Stdlib Require Import Permutation Sorted.
From stdpp Require Import base gmap strings.
From ITree Require Import ITree.
Import ListNotations.

(** ** JavaScript strings *)

Module JS.

Local Open Scope string_scope.

(** White space and line terminators among the code units below 256:
    TAB, LF, VT, FF, CR, SP and NBSP.  This is the class of [\s], of
    [String.prototype.trim] and of the prefix that [parseInt] skips. *)
Definition isWhiteSpace (c : ascii) : bool :=
  let n := nat_of_ascii c in
  ((9 <=? n)%nat && (n <=? 13)%nat) || (n =? 32)%nat || (n =? 160)%nat.

(** Line terminators below 256 (LF and CR): what [.] of a regular
    expression does not match. *)
Definition isLineTerminator (c : ascii) : bool :=
  let n := nat_of_ascii c in (n =? 10)%nat || (n =? 13)%nat.

Definition isEmpty (s : string) : bool :=
  match s with EmptyString => true | String _ _ => false end.

(** A string is truthy when it is not empty. *)
Definition truthy (s : string) : bool := negb (isEmpty s).

Fixpoint trimStart (s : string) : string :=
  match s with
  | EmptyString => EmptyString
  | String c r => if isWhiteSpace c then trimStart r else s
  end.

Fixpoint trimEnd (s : string) : string :=
  match s with
  | EmptyString => EmptyString
  | String c r =>
      let r' := trimEnd r in
      if isWhiteSpace c && isEmpty r' then EmptyString else String c r'
  end.

(** [String.prototype.trim] *)
Definition trim (s : string) : string := trimEnd (trimStart s).

(** [s.split (sep)] for a one-character separator: one piece per
    occurrence of the separator, plus one; never the empty array. *)
Fixpoint splitChar (sep : ascii) (s : string) : list string :=
  match s with
  | EmptyString => [EmptyString]
  | String c r =>
      if Ascii.eqb c sep then EmptyString :: splitChar sep r
      else match splitChar sep r with
           | [] => [String c EmptyString]
           | p :: ps => String c p :: ps
           end
  end.

(** [s.split (/\s+/g)]: the pieces between maximal runs of white space.
    A leading or trailing run leaves an empty piece at that end, and the
    empty string gives one empty piece.  [inrun] says that the previous
    code unit was white space, so that the run is already split. *)
Fixpoint splitWhiteSpaceFrom (inrun : bool) (s : string) : list string :=
  match s with
  | EmptyString => [EmptyString]
  | String c r =>
      if isWhiteSpace c then
        if inrun then splitWhiteSpaceFrom true r
        else EmptyString :: splitWhiteSpaceFrom true r
      else match splitWhiteSpaceFrom false r with
           | [] => [String c EmptyString]
           | p :: ps => String c p :: ps
           end
  end.

Definition splitWhiteSpace (s : string) : list string :=
  splitWhiteSpaceFrom false s.

End JS.

(** ** Messages ([types.js], as built by [mchadToMessage] and [ytcToMsg]) *)

(** One span of the rich content of a message. *)
Record MessageItem := { item_type : string; item_text : string }.

(** [messageId] is a Number for relay messages and a string for messages
    of the primary chat. *)
Inductive MessageId :=
| IdNumber (n : Z)
| IdString (s : string).

Record Message := {
  text : string;
  messageArray : list MessageItem;
  author : string;
  authorId : string;
  langCode : option string;
  messageId : MessageId;
  timestamp : string;
  types : Z;
  timestampMs : Z
}.

(** ** The bitwise operators of JavaScript *)

Module JSBits.

Local Open Scope Z_scope.

(** The low 32 bits of an integer, as an unsigned number. *)
Definition low (z : Z) : Z := z mod 2 ^ 32.

(** [ToInt32]: the low 32 bits, read in two's complement. *)
Definition toInt32 (z : Z) : Z :=
  let u := low z in if u <? 2 ^ 31 then u else u - 2 ^ 32.

(** [a & b] and [a | b]: both operands go through [ToInt32], and the
    result is a 32-bit integer in two's complement. *)
Definition and32 (a b : Z) : Z := toInt32 (Z.land (low a) (low b)).

Definition or32 (a b : Z) : Z := toInt32 (Z.lor (low a) (low b)).

End JSBits.

(** ** [sources.js]: the classifier of the primary chat *)

Module Sources.

Local Open Scope Z_scope.

(** The output streams that [attachFilters] writes. *)
Inductive Stream := ChatTranslations | Mod | Verified.

(** What one call of the subscriber of [attachFilters] does: nothing, one
    [store.set (value)], or a [TypeError] (reading [parsed.msg] of a null
    [parsed]). *)
Inductive Outcome :=
| NoWrite
| Write (s : Stream) (value : Message)
| Threw.

(** The toggles of [store.js], read when a message is classified. *)
Record Toggles := { showModMessage : bool; showVerifiedMessage : bool }.

(** A Number is truthy when it is not zero. *)
Definition truthyZ (n : Z) : bool := negb (n =? 0).

Section Classifier.

(** Imports of [filter.js]. *)
Variable textWhitelisted textBlacklisted : string -> bool.
Variable authorWhitelisted authorBlacklisted : string -> bool.
(** The result of [parseTranslation] when it is an object; [parsedMsg] is
    its [msg] property. *)
Variable Parsed : Type.
Variable parseTranslation : string -> option Parsed.
Variable isTranslation : option Parsed -> bool.
Variable parsedMsg : Parsed -> option string.
Variable replaceFirstTranslation : Message -> Message.

(** The flags [AuthorType.moderator], [AuthorType.owner] and
    [AuthorType.verified] of [constants.js]. *)
Variable moderator owner verifiedFlag : Z.

Definition isWhitelisted (msg : Message) : bool :=
  textWhitelisted (text msg) || authorWhitelisted (author msg).

Definition isBlacklisted (msg : Message) : bool :=
  textBlacklisted (text msg) || authorBlacklisted (author msg).

(** [a || b] on Numbers gives [a] when [a] is truthy, else [b]. *)
Definition isMod (msg : Message) : Z :=
  let m := JSBits.and32 (types msg) moderator in
  if truthyZ m then m else JSBits.and32 (types msg) owner.

Definition showIfMod (t : Toggles) (msg : Message) : bool :=
  truthyZ (isMod msg) && showModMessage t.

Definition showIfVerified (t : Toggles) (msg : Message) : bool :=
  truthyZ (JSBits.and32 (types msg) verifiedFlag) && showVerifiedMessage t.

(** [{ ...msg, text: text ?? msg.text }], the value that
    [setStoreMessage (store)] hands to [store.set]. *)
Definition setStoreMessage (msg : Message) (txt : option string) : Message :=
  {| text := match txt with Some t => t | None => text msg end;
     messageArray := messageArray msg;
     author := author msg;
     authorId := authorId msg;
     langCode := langCode msg;
     messageId := messageId msg;
     timestamp := timestamp msg;
     types := types msg;
     timestampMs := timestampMs msg |}.

(** The subscriber that [attachFilters] installs on [chat]. *)
Definition attachFilters (t : Toggles) (message : option Message) : Outcome :=
  match message with
  | None => NoWrite
  | Some message =>
      if isBlacklisted message then NoWrite
      else
        let text := JS.trim (text message) in
        let parsed := parseTranslation text in
        if JS.truthy text && isTranslation parsed then
          match parsed with
          | Some p =>
              Write ChatTranslations
                (setStoreMessage (replaceFirstTranslation message) (parsedMsg p))
          | None => Threw
          end
        else if JS.truthy text && isWhitelisted message then
          Write ChatTranslations (setStoreMessage message None)
        else if showIfMod t message then
          Write Mod (setStoreMessage message None)
        else if showIfVerified t message then
          Write Verified (setStoreMessage message None)
        else NoWrite
  end.

End Classifier.

(** Two messages agree on every field other than [text]. *)
Definition sameFrame (a b : Message) : Prop :=
  messageArray a = messageArray b /\ author a = author b /\
  authorId a = authorId b /\ langCode a = langCode b /\
  messageId a = messageId b /\ timestamp a = timestamp b /\
  types a = types b /\ timestampMs a = timestampMs b.

End Sources.

(** ** JavaScript numbers as far as [mchad.js] needs them *)

Module JSNumber.

Local Open Scope Z_scope.

(** A Number is [NaN] or a rational.  The source only produces integers
    and integers divided by powers of 60; rounding to a double and the
    infinities are outside the embedding. *)
Inductive Number :=
| NaN
| Num (q : Q).

Definition ofInt (o : option Z) : Number :=
  match o with Some z => Num (inject_Z z) | None => NaN end.

(** [a + b] and [a * b]: [NaN] is absorbing. *)
Definition add (a b : Number) : Number :=
  match a, b with Num p, Num q => Num (p + q) | _, _ => NaN end.

Definition mul (a b : Number) : Number :=
  match a, b with Num p, Num q => Num (p * q) | _, _ => NaN end.

(** [Math.pow (base, e)] for an integer base other than zero and an
    integer exponent. *)
Definition pow (base e : Z) : Number := Num (Qpower (inject_Z base) e).

(** [a >= 0]: false for [NaN]. *)
Definition geZero (a : Number) : bool :=
  match a with Num q => Qle_bool 0 q | NaN => false end.

(** The order on Numbers that are not [NaN]. *)
Definition le (a b : Number) : Prop :=
  match a, b with Num p, Num q => (p <= q)%Q | _, _ => False end.

Definition isNum (a : Number) : Prop :=
  match a with Num _ => True | NaN => False end.

(** The value of a digit in the given radix, if it is one. *)
Definition digitValue (radix : Z) (c : ascii) : option Z :=
  let n := Z.of_nat (nat_of_ascii c) in
  let v :=
    if (48 <=? n) && (n <=? 57) then Some (n - 48)
    else if (97 <=? n) && (n <=? 122) then Some (n - 87)
    else if (65 <=? n) && (n <=? 90) then Some (n - 55)
    else None in
  match v with
  | Some d => if d <? radix then Some d else None
  | None => None
  end.

(** The value of the longest prefix of digits; [acc] is the value read so
    far, [None] while no digit has been read. *)
Fixpoint digitsPrefix (radix : Z) (s : string) (acc : option Z) : option Z :=
  match s with
  | EmptyString => acc
  | String c r =>
      match digitValue radix c with
      | Some d =>
          digitsPrefix radix r
            (Some (match acc with Some a => a * radix + d | None => d end))
      | None => acc
      end
  end.

(** [parseInt (s)] without a radix: leading white space is skipped, then
    an optional sign, then an optional [0x] or [0X] that switches to
    radix 16; the digits that follow are read up to the first other code
    unit.  No digit at all gives [NaN] ([None]). *)
Definition parseInt (s : string) : option Z :=
  let s1 := JS.trimStart s in
  let '(sign, s2) :=
    match s1 with
    | String "-"%char r => (-1, r)
    | String "+"%char r => (1, r)
    | _ => (1, s1)
    end in
  let '(radix, s3) :=
    match s2 with
    | String "0"%char (String x r) =>
        if Ascii.eqb x "x"%char || Ascii.eqb x "X"%char then (16, r)
        else (10, s2)
    | _ => (10, s2)
    end in
  match digitsPrefix radix s3 None with
  | Some m => Some (sign * m)
  | None => None
  end.

(** [arr.map ((t, i) => f (t, i))], the index counted from [i]. *)
Fixpoint mapIndexFrom {A B} (f : A -> Z -> B) (i : Z) (l : list A) : list B :=
  match l with
  | [] => []
  | x :: r => f x i :: mapIndexFrom f (i + 1) r
  end.

End JSNumber.

(** ** A matcher for the regular expression of [getFirstTime] *)

Module Regex.

(** Regular expressions over code units; a character class is a
    predicate. *)
Inductive Regex :=
| Fail
| Eps
| Class (p : ascii -> bool)
| Cat (r1 r2 : Regex)
| Alt (r1 r2 : Regex)
| Star (r : Regex).

Fixpoint nullable (r : Regex) : bool :=
  match r with
  | Fail => false
  | Eps => true
  | Class _ => false
  | Cat r1 r2 => nullable r1 && nullable r2
  | Alt r1 r2 => nullable r1 || nullable r2
  | Star _ => true
  end.

(** The derivative of [r] by the code unit [c]. *)
Fixpoint deriv (c : ascii) (r : Regex) : Regex :=
  match r with
  | Fail => Fail
  | Eps => Fail
  | Class p => if p c then Eps else Fail
  | Cat r1 r2 =>
      if nullable r1 then Alt (Cat (deriv c r1) r2) (deriv c r2)
      else Cat (deriv c r1) r2
  | Alt r1 r2 => Alt (deriv c r1) (deriv c r2)
  | Star r1 => Cat (deriv c r1) (Star r1)
  end.

(** The whole string is in the language of [r]. *)
Fixpoint matches (r : Regex) (s : string) : bool :=
  match s with
  | EmptyString => nullable r
  | String c s' => matches (deriv c r) s'
  end.

(** [.]: any code unit that is not a line terminator. *)
Definition dot : Regex := Class (fun c => negb (JS.isLineTerminator c)).

Definition anything : Regex := Star (Class (fun _ => true)).

(** The upper case of an ASCII letter, as the [i] flag compares code
    units below 256 with the letters of a pattern. *)
Definition upper (c : ascii) : ascii :=
  let n := nat_of_ascii c in
  if ((97 <=? n) && (n <=? 122))%nat then ascii_of_nat (n - 32) else c.

(** The literal [s]. *)
Fixpoint lit (s : string) : Regex :=
  match s with
  | EmptyString => Eps
  | String c r => Cat (Class (Ascii.eqb c)) (lit r)
  end.

(** The literal [s] under the [i] flag. *)
Fixpoint litI (s : string) : Regex :=
  match s with
  | EmptyString => Eps
  | String c r => Cat (Class (fun x => Ascii.eqb (upper x) (upper c))) (litI r)
  end.

(** [re.test (s)] for a pattern without anchors: some substring of [s]
    is in the language of [r]. *)
Definition test (r : Regex) (s : string) : bool :=
  matches (Cat anything (Cat r anything)) s.

End Regex.

(** ** [mchad.js]: the relay *)

Module Mchad.

Import JSNumber.
Local Open Scope Z_scope.

(** One line of a relay script ([Ty.MCHADTL]). *)
Record MCHADTL := { Stext : string; Stime : Z }.

Record MCHADArchiveRoom := { Room : string; Link : string; Tags : string }.

Record MCHADLiveRoom := { Nick : string; liveTags : string }.

(** What [getRooms] resolves to. *)
Record Rooms := { live : list MCHADLiveRoom; vod : list MCHADArchiveRoom }.

(** One push of the live feed of a room ([Ty.MCHADStreamItem]). *)
Record MCHADStreamItem := { flag : string; content : MCHADTL }.

(** *** The message counter

    [mchadTLCounter] is the state of a small state monad. *)

Definition Counter (A : Type) : Type := Z -> A * Z.

#[export] Instance counter_ret : MRet Counter := fun A x c => (x, c).

#[export] Instance counter_bind : MBind Counter :=
  fun A B f m c => let '(x, c') := m c in f x c'.

(** [++mchadTLCounter] *)
Definition incrCounter : Counter Z := fun c => (c + 1, c + 1).

(** *** The Suppression Registry *)

(** Modelled from the spec: [mchadUsers] of [store.js] is not among the
    sources.  The specification describes it as a mapping from author
    name to a boolean suppressed flag, in which a new author is
    initialized unsuppressed: [get] of an author that is not a key reads
    as [false]. *)
Definition mchadUsersGet (users : gmap string bool) (a : string) : bool :=
  match users !! a with Some b => b | None => false end.

Definition mchadUsersSet (a : string) (b : bool) (users : gmap string bool)
  : gmap string bool := <[a := b]> users.

(** *** Time stamps *)

(** [`${e}`.padStart (2, '0')] *)
Definition pad2 (n : Z) : string :=
  let s := DecimalString.NilZero.string_of_int (Z.to_int n) in
  match s with
  | String c EmptyString => String "0" (String c EmptyString)
  | EmptyString => "00"%string
  | _ => s
  end.

(** Modelled from the spec: [formatTimestampMillis] of [utils.js] is not
    among the sources.  The specification calls its result the
    human-readable elapsed-time string [HH:MM:SS] of a millisecond
    offset: hours, minutes and seconds of the whole seconds elapsed, two
    digits each.  (For a negative offset the specification fixes
    nothing; the components then carry the sign, as the remainders of
    JavaScript do.) *)
Definition formatTimestampMillis (millis : Z) : string :=
  let time := millis / 1000 in
  let hours := time / 3600 in
  let mins := Z.rem time 3600 / 60 in
  let secs := Z.rem time 60 in
  (pad2 hours ++ ":" ++ pad2 mins ++ ":" ++ pad2 secs)%string.

Definition archiveUnixToTimestamp (startUnix unix : Z) : string :=
  formatTimestampMillis (unix - startUnix).

Definition archiveUnixToNumber (startUnix unix : Z) : Z := unix - startUnix.

(** The pieces of [archiveTime] between colons, each through [parseInt],
    each times [Math.pow (60, 2 - i)], summed from the left.  [split]
    gives at least one piece, so the [reduce] without an initial value
    has a first element to start from. *)
Definition archiveTimeToInt (archiveTime : string) : Number :=
  let parts := map (fun t => ofInt (parseInt t)) (JS.splitChar ":" archiveTime) in
  let scaled := mapIndexFrom (fun t i => mul t (pow 60 (2 - i))) 0 parts in
  match scaled with
  | [] => NaN
  | first :: rest => fold_left add rest first
  end.

(** The recomputed offset in the words of the specification: every
    component of the elapsed-time string between colons, parsed as an
    integer, times the power of 60 of its place ([60^(2 - i)] for the
    component of index [i]), all summed. *)
Definition recomputedOffset (elapsed : string) : Number :=
  fold_right add (Num 0)
    (mapIndexFrom (fun t i => mul (ofInt (parseInt t)) (pow 60 (2 - i))) 0
       (JS.splitChar ":" elapsed)).

(** Numbers that are equal as Numbers: the same rational, or both
    [NaN]. *)
Definition eqNumber (a b : Number) : Prop :=
  match a, b with
  | Num p, Num q => (p == q)%Q
  | NaN, NaN => True
  | _, _ => False
  end.

(** [/--.*Stream.*Start.*--/i] *)
Definition streamStart : Regex.Regex :=
  Regex.Cat (Regex.lit "--")
    (Regex.Cat (Regex.Star Regex.dot)
       (Regex.Cat (Regex.litI "Stream")
          (Regex.Cat (Regex.Star Regex.dot)
             (Regex.Cat (Regex.litI "Start")
                (Regex.Cat (Regex.Star Regex.dot) (Regex.lit "--")))))).

Definition isStreamStart (s : MCHADTL) : bool := Regex.test streamStart (Stext s).

(** [script.find (...)?.Stime ?? script[0]?.Stime ?? 0] *)
Definition getFirstTime (script : list MCHADTL) : Z :=
  match find isStreamStart script with
  | Some s => Stime s
  | None =>
      match script with
      | s :: _ => Stime s
      | [] => 0
      end
  end.

(** *** Archive scripts on their way to the replay *)

(** A message with the [unix] property that [addUnix] adds. *)
Record Timed := { tl : Message; unix : Number }.

Definition addUnix (m : Message) : Timed :=
  {| tl := m; unix := archiveTimeToInt (timestamp m) |}.

(** The comparison [l.unix - r.unix <= 0] of a sort; a [NaN] difference
    counts as zero. *)
Definition leb (a b : Number) : bool :=
  match a, b with Num p, Num q => Qle_bool p q | _, _ => true end.

Fixpoint insertBy {A} (key : A -> Number) (x : A) (l : list A) : list A :=
  match l with
  | [] => [x]
  | y :: r => if leb (key x) (key y) then x :: y :: r else y :: insertBy key x r
  end.

(** Modelled from the spec: [sortBy] of [utils.js] is not among the
    sources.  The specification says that the entries are sorted
    ascending by the recomputed integer; the model is the stable
    ascending sort by [key], which is what [Array.prototype.sort] gives
    with the comparison [l[key] - r[key]]. *)
Definition sortBy {A} (key : A -> Number) (l : list A) : list A :=
  fold_right (insertBy key) [] l.

(** What [getScript] does to the messages of one archive room. *)
Definition getScript (s : list Message) : list Timed :=
  sortBy unix (List.filter (fun e => geZero (unix e)) (map addUnix s)).

Definition isNotEmpty {A} (arr : list A) : bool :=
  negb (Nat.eqb (length arr) 0).

(** The scripts of the archive rooms, from the messages that
    [getArchiveFromRoom] gave for each room: prepared by [getScript], and
    dropped when nothing is left of them. *)
Definition getArchiveScripts (fetched : list (list Message))
  : list (list Timed) :=
  List.filter isNotEmpty (map getScript fetched).

(** [script[0].author]; on an empty script the source would throw. *)
Definition getScriptAuthor (script : list Timed) : option string :=
  match script with
  | e :: _ => Some (author (tl e))
  | [] => None
  end.

(** [scripts.map (getScriptAuthor).forEach (author =>
    mchadUsers.set (author, mchadUsers.get (author)))] *)
Definition registerAuthors (scripts : list (list Timed))
  (users : gmap string bool) : gmap string bool :=
  fold_left
    (fun u script =>
       match getScriptAuthor script with
       | Some a => mchadUsersSet a (mchadUsersGet u a) u
       | None => u
       end)
    scripts users.

(** The subscriber of [getArchive] on one replayed script: [Some tl] when
    it calls [set (tl)]. *)
Definition getArchiveSubscriber (enableMchadTLs : bool)
  (mchadUsers : gmap string bool) (item : option Timed) : option Timed :=
  match item with
  | None => None
  | Some e =>
      if enableMchadTLs && negb (mchadUsersGet mchadUsers (author (tl e)))
      then Some e else None
  end.

(** The subscriber of [getLiveTranslations] on the stream of one room. *)
Definition getLiveTranslationsSubscriber (enableMchadTLs : bool)
  (mchadUsers : gmap string bool) (msg : option Message) : option Message :=
  match msg with
  | None => None
  | Some m =>
      if enableMchadTLs && negb (mchadUsersGet mchadUsers (author m))
      then Some m else None
  end.

(** *** Language of a room, and the construction of messages *)

Section Relay.

(** [languagesInfo] of [constants.js], with the [code] property of its
    entries, and [isLangMatch] of [filter.js]. *)
Variable Language : Type.
Variable code : Language -> string.
Variable languagesInfo : list Language.
Variable isLangMatch : string -> Language -> bool.

(** [AuthorType.mchad] of [constants.js]. *)
Variable mchadFlag : Z.

(** [liveUnixToTimestamp] formats a time in the locale and the time zone
    of the browser. *)
Variable liveUnixToTimestamp : Z -> string.

Definition possibleLanguages (tag : string) : list Language :=
  List.filter (fun lang => isLangMatch tag lang) languagesInfo.

(** [possible[possible.length - 1]?.code ?? null] *)
Definition getRoomTagLanguageCode (tag : string) : option string :=
  let possible := concat (map possibleLanguages (JS.splitWhiteSpace tag)) in
  match nth_error possible (length possible - 1) with
  | Some lang => Some (code lang)
  | None => None
  end.

Definition mchadToMessage (author : string) (unixToTimestamp : Z -> string)
  (unixToNumber : Z -> Z) (langCode : option string) (data : MCHADTL)
  : Counter Message :=
  id ← incrCounter;
  mret {| text := Stext data;
          messageArray := [ {| item_type := "text"; item_text := Stext data |} ];
          author := author;
          authorId := author;
          langCode := langCode;
          messageId := IdNumber id;
          timestamp := unixToTimestamp (Stime data);
          types := mchadFlag;
          timestampMs := unixToNumber (Stime data) |}.

(** [getArchiveFromRoom], from the script that the request resolved to. *)
Definition getArchiveFromRoom (room : MCHADArchiveRoom) (script : list MCHADTL)
  : Counter (list Message) :=
  let firstTime := getFirstTime script in
  let toMessage :=
    mchadToMessage (Room room) (archiveUnixToTimestamp firstTime)
      (archiveUnixToNumber firstTime) (getRoomTagLanguageCode (Tags room)) in
  mapM toMessage script.

(** The callback of [getRoomTranslations] on one value of the stream of
    the room: [Some msg] when it calls [set (msg)]. *)
Definition getRoomTranslations (enableMchadTLs : bool) (room : MCHADLiveRoom)
  (data : option MCHADStreamItem) : Counter (option Message) :=
  if negb enableMchadTLs then mret None
  else
    let langCode := getRoomTagLanguageCode (liveTags room) in
    let toMessage :=
      mchadToMessage (Nick room) liveUnixToTimestamp (fun u => u) langCode in
    match data with
    | Some d =>
        if String.eqb (flag d) "insert" || String.eqb (flag d) "update"
        then m ← toMessage (content d); mret (Some m)
        else mret None
    | None => mret None
    end.

(** One construction of relay messages: a whole archive script, or one
    push of a live room. *)
Inductive Construction :=
| FromArchive (room : MCHADArchiveRoom) (script : list MCHADTL)
| FromLive (enableMchadTLs : bool) (room : MCHADLiveRoom)
    (data : option MCHADStreamItem).

Definition construct (c : Construction) : Counter (list Message) :=
  match c with
  | FromArchive room script => getArchiveFromRoom room script
  | FromLive enable room data =>
      o ← getRoomTranslations enable room data;
      mret (match o with Some m => [m] | None => [] end)
  end.

(** The messages of a sequence of constructions, in creation order. *)
Definition constructAll (cs : list Construction) : Counter (list Message) :=
  ms ← mapM construct cs; mret (concat ms).

End Relay.

(** The numbers [c + 1], ..., [c + n]. *)
Definition idsFrom (c : Z) (n : nat) : list Z :=
  map (fun i => c + Z.of_nat i) (seq 1 n).

(** A computation numbers its messages when, from the counter [c], the
    messages it builds carry [c + 1], [c + 2], ... in order, and the
    counter ends on the last of them. *)
Definition numbers (k : Counter (list Message)) : Prop :=
  forall c : Z,
    map messageId (fst (k c)) = map IdNumber (idsFrom c (length (fst (k c)))) /\
    snd (k c) = c + Z.of_nat (length (fst (k c))).

(** *** Waiting for a live room *)

(** What [getLiveRoomsWithRetry] asks of its environment. *)
Variant retryE : Type -> Type :=
| GetRooms (videoLink : string) : retryE Rooms
| Sleep (millis : Z) : retryE unit.

(** One turn of the [for (;;)] loop: [inr live] returns, [inl tt] goes
    round again. *)
Definition retryBody (videoLink : string) (retryInterval : Z) (_ : unit)
  : itree retryE (unit + list MCHADLiveRoom) :=
  ITree.bind (ITree.trigger (GetRooms videoLink)) (fun rooms =>
    if negb (Nat.eqb (length (live rooms)) 0) then Ret (inr (live rooms))
    else ITree.bind (ITree.trigger (Sleep (retryInterval * 1000)))
           (fun _ => Ret (inl tt))).

Definition getLiveRoomsWithRetry (videoLink : string) (retryInterval : Z)
  : itree retryE (list MCHADLiveRoom) :=
  ITree.iter (retryBody videoLink retryInterval) tt.

(** The rooms that [getLiveTranslations] subscribes to. *)
Definition getLiveTranslationsRooms (videoLink : string)
  : itree retryE (list MCHADLiveRoom) :=
  getLiveRoomsWithRetry videoLink 30.

(** What an observer of the environment sees. *)
Inductive Observed :=
| Resolved (videoLink : string)
| Slept (millis : Z).

(** What is observed while the first resolutions find no live room: each
    is one resolution followed by one sleep. *)
Definition waiting (videoLink : string) (retryInterval : Z) (n : nat)
  : list Observed :=
  concat (repeat [Resolved videoLink; Slept (retryInterval * 1000)] n).

Definition isSlept (o : Observed) : bool :=
  match o with Slept _ => true | Resolved _ => false end.

(** Running a tree against the successive results of [getRooms].  The
    result is [None] when the fuel or the results run out first. *)
Fixpoint run {R} (fuel : nat) (t : itree retryE R) (results : list Rooms)
  : option (list Observed * R) :=
  match fuel with
  | O => None
  | S fuel' =>
      match observe t with
      | RetF r => Some ([], r)
      | TauF t' => run fuel' t' results
      | VisF e k =>
          match e in retryE X return (X -> itree retryE R) -> _ with
          | GetRooms videoLink => fun k =>
              match results with
              | rooms :: results' =>
                  match run fuel' (k rooms) results' with
                  | Some (obs, r) => Some (Resolved videoLink :: obs, r)
                  | None => None
                  end
              | [] => None
              end
          | Sleep millis => fun k =>
              match run fuel' (k tt) results with
              | Some (obs, r) => Some (Slept millis :: obs, r)
              | None => None
              end
          end k
      end
  end.

End Mchad.

(** ** [sources.js]: the handshake of [ytcSource] *)

Module Ytc.

Local Open Scope Z_scope.

(** [Chat.FrameInfo]; [parseInt] of a parameter that is not a number
    leaves [NaN] ([None]) in the field. *)
Record FrameInfo := { tabId : option Z; frameId : option Z }.

(** The variables that the closures of [ytcSource] share. *)
Record State := {
  portRegistered : bool;
  tryRegister : Z;
  frameInfo : option FrameInfo
}.

(** What a piece of the handshake does to the outside. *)
Inductive Effect :=
| PostRegisterClient (info : FrameInfo)  (* [port.postMessage], [getInitialData: false] *)
| SetTimeout (millis : Z)                (* [setTimeout (registerClient, millis)] *)
| ConsoleError (text : string)
| StoreSet (store : string).             (* a [set] of one of the stores *)

(** A message of the background port, by its [type]. *)
Inductive Response :=
| Messages (count : nat)
| Bonk
| Delete
| PlayerProgress
| RegisterClientResponse (success : bool) (failReason : string)
| OtherType.

(** What can happen to the source once it is set up. *)
Inductive Event :=
| WindowMessage (type : string) (info : option FrameInfo)
| PortMessage (r : Response)
| TimerFired.

Definition initial : State :=
  {| portRegistered := false; tryRegister := 0; frameInfo := None |}.

Definition registerClient (st : State) : list Effect * State :=
  match frameInfo st with
  | None => ([ConsoleError "frameInfo is null"], st)
  | Some info =>
      ([PostRegisterClient info],
       {| portRegistered := portRegistered st;
          tryRegister := tryRegister st + 1;
          frameInfo := frameInfo st |})
  end.

Section Source.

(** [paramsPopout] (as a truth value), [paramsTabId] and [paramsFrameId]
    of [constants.js]. *)
Variable paramsPopout : bool.
Variable paramsTabId paramsFrameId : string.

(** The body of [ytcSource] after the port is connected. *)
Definition setUp : list Effect * State :=
  if paramsPopout && negb (portRegistered initial) then
    registerClient
      {| portRegistered := portRegistered initial;
         tryRegister := tryRegister initial;
         frameInfo := Some {| tabId := JSNumber.parseInt paramsTabId;
                              frameId := JSNumber.parseInt paramsFrameId |} |}
  else ([], initial).

Definition onWindowMessage (type : string) (info : option FrameInfo)
  (st : State) : list Effect * State :=
  if negb paramsPopout && String.eqb type "frameInfo" && negb (portRegistered st)
  then registerClient
         {| portRegistered := portRegistered st;
            tryRegister := tryRegister st;
            frameInfo := info |}
  else ([], st).

Definition onPortMessage (r : Response) (st : State) : list Effect * State :=
  match r with
  | Messages count => (repeat (StoreSet "ytc") count, st)
  | Bonk => ([StoreSet "ytcBonks"], st)
  | Delete => ([StoreSet "ytcDeletions"], st)
  | PlayerProgress => ([StoreSet "timestamp"], st)
  | RegisterClientResponse success failReason =>
      if success then
        ([], {| portRegistered := true;
                tryRegister := tryRegister st;
                frameInfo := frameInfo st |})
      else if tryRegister st <? 3 then ([SetTimeout 500], st)
      else
        ([ConsoleError
            ("Failed to connect to YTC source after 3 attempts: " ++ failReason)],
         st)
  | OtherType => ([], st)
  end.

Definition step (ev : Event) (st : State) : list Effect * State :=
  match ev with
  | WindowMessage type info => onWindowMessage type info st
  | PortMessage r => onPortMessage r st
  | TimerFired => registerClient st
  end.

(** A port that rejects every registration, and the timers: each
    [registerClient] message is answered by a failure, each timeout fires
    once. *)
Definition rejecting (failReason : string) (e : Effect) : list Event :=
  match e with
  | PostRegisterClient _ => [PortMessage (RegisterClientResponse false failReason)]
  | SetTimeout _ => [TimerFired]
  | _ => []
  end.

(** The source against an environment that answers each effect with the
    events of [react], in order of arrival.  The result is what the
    source did, its last state and the events still pending. *)
Fixpoint drive (react : Effect -> list Event) (fuel : nat) (st : State)
  (pending : list Event) : list Effect * State * list Event :=
  match fuel, pending with
  | S fuel', ev :: rest =>
      let '(effects, st') := step ev st in
      let '(later, final, remaining) :=
        drive react fuel' st' (rest ++ flat_map react effects) in
      (effects ++ later, final, remaining)
  | _, _ => ([], st, pending)
  end.

(** [ytcSource] from its set-up on, against [react]; [incoming] are the
    events that arrive from elsewhere (the [frameInfo] message of the
    embedding window). *)
Definition ytcSource (react : Effect -> list Event) (fuel : nat)
  (incoming : list Event) : list Effect * State * list Event :=
  let '(effects, st) := setUp in
  let '(later, final, remaining) :=
    drive react fuel st (flat_map react effects ++ incoming) in
  (effects ++ later, final, remaining).

End Source.

End Ytc.

(** ** [sources.js] and [mchad.js]: the stores of the relay *)

Module Stores.

(** The stores are those of [svelte/store], a dependency that is not
    part of the sources.  The model follows its [writable (value, start)],
    of which [readable] exposes the [subscribe]:
    - [subscribe (run)] adds the subscriber, calls [start (set)] for the
      first subscriber and keeps the result (or a no-op, when the result
      is falsy) in [stop], then calls [run (value)]; it returns the
      function that removes the subscriber and, when none is left, calls
      [stop ()] and clears [stop];
    - [set (v)] stores [v] when it differs from the value, and then runs
      the subscribers when [stop] is set. *)

(** What the relay stores carry: an entry of an archive script (with its
    [unix] property) or a message of a live room. *)
Inductive RelayItem :=
| ArchiveItem (e : Mchad.Timed)
| LiveItem (m : Message).

(** The values that the variable [stop] of a store can hold.  The start
    functions of [getArchive] and [getLiveTranslations] are [async]: what
    they return to the store is a promise, and the function after their
    [return] is the value the promise settles to. *)
Inductive StopValue :=
| Noop
| Teardown (rooms : list nat)
| PendingPromise
| SettledPromise (result : StopValue).

(** A store made by [readable (null, async set => ...)].  The store is
    the [writable] of [svelte/store], which is a dependency and not part
    of the sources; the model keeps what that function keeps: the value,
    the subscribers, and [stop], the result of the start function
    ([None] while nobody is subscribed).  [roomSubscriptions] are the
    room streams on which the subscriber of the start function is
    installed. *)
Record Relay := {
  value : option RelayItem;
  subscribers : list nat;
  stop : option StopValue;
  roomSubscriptions : list nat
}.

Inductive Which := Archive | Live.

(** [combineStores (getArchive (link), getLiveTranslations (link))]:
    the two relay stores, the combined store with the values that
    [combined.set] stored (oldest first), and the array [unsubscribes]. *)
Record World := {
  archive : Relay;
  liveRelay : Relay;
  combined : option RelayItem;
  emitted : list (option RelayItem);
  unsubscribes : list (Which * nat)
}.

Definition idle : Relay :=
  {| value := None; subscribers := []; stop := None; roomSubscriptions := [] |}.

Definition start : World :=
  {| archive := idle; liveRelay := idle; combined := None; emitted := [];
     unsubscribes := [] |}.

Definition relay (which : Which) (w : World) : Relay :=
  match which with Archive => archive w | Live => liveRelay w end.

Definition withRelay (which : Which) (r : Relay) (w : World) : World :=
  match which with
  | Archive =>
      {| archive := r; liveRelay := liveRelay w; combined := combined w;
         emitted := emitted w; unsubscribes := unsubscribes w |}
  | Live =>
      {| archive := archive w; liveRelay := r; combined := combined w;
         emitted := emitted w; unsubscribes := unsubscribes w |}
  end.

(** [combined.set (v)]: a store keeps a new value unless both the old and
    the new one are [null] (objects always count as changed). *)
Definition combinedSet (v : option RelayItem) (w : World) : World :=
  match v, combined w with
  | None, None => w
  | _, _ =>
      {| archive := archive w; liveRelay := liveRelay w; combined := v;
         emitted := emitted w ++ [v]; unsubscribes := unsubscribes w |}
  end.

(** [s.subscribe (v => combined.set (v))] on a relay store: the
    subscriber is added; the first subscriber makes the store call its
    start function, whose result (a pending promise) becomes [stop]; the
    subscriber is then run on the current value. *)
Definition subscribe (which : Which) (id : nat) (w : World) : World :=
  let r := relay which w in
  let subs := subscribers r ++ [id] in
  let r' :=
    {| value := value r;
       subscribers := subs;
       stop := if Nat.eqb (length subs) 1 then Some PendingPromise else stop r;
       roomSubscriptions := roomSubscriptions r |} in
  let w' := combinedSet (value r) (withRelay which r' w) in
  {| archive := archive w'; liveRelay := liveRelay w'; combined := combined w';
     emitted := emitted w'; unsubscribes := unsubscribes w' ++ [(which, id)] |}.

Definition combineStores (w : World) : World :=
  subscribe Live 0 (subscribe Archive 0 w).

(** The start function of a relay store comes to its [return]: it has
    subscribed to the streams of [rooms], and its promise settles to the
    function that would unsubscribe them. *)
Definition settle (which : Which) (rooms : list nat) (w : World) : World :=
  let r := relay which w in
  withRelay which
    {| value := value r;
       subscribers := subscribers r;
       stop := match stop r with
               | Some PendingPromise => Some (SettledPromise (Teardown rooms))
               | other => other
               end;
       roomSubscriptions := roomSubscriptions r ++ rooms |} w.

(** [stop ()]: the room subscriptions that remain, or [None] for the
    [TypeError] of calling something that is not a function. *)
Definition callStop (s : StopValue) (rooms : list nat) : option (list nat) :=
  match s with
  | Noop => Some rooms
  | Teardown gone =>
      Some (List.filter (fun r => negb (existsb (Nat.eqb r) gone)) rooms)
  | PendingPromise => None
  | SettledPromise _ => None
  end.

(** The function that [subscribe] returned: the subscriber is removed,
    and when it was the last one the store calls [stop ()] and clears
    [stop].  The boolean is [false] when the call threw. *)
Definition unsubscribe (which : Which) (id : nat) (w : World) : World * bool :=
  let r := relay which w in
  let subs := List.filter (fun i => negb (Nat.eqb i id)) (subscribers r) in
  if Nat.eqb (length subs) 0 then
    match stop r with
    | Some s =>
        match callStop s (roomSubscriptions r) with
        | Some rooms =>
            (withRelay which
               {| value := value r; subscribers := subs; stop := None;
                  roomSubscriptions := rooms |} w, true)
        | None =>
            (withRelay which
               {| value := value r; subscribers := subs; stop := stop r;
                  roomSubscriptions := roomSubscriptions r |} w, false)
        end
    | None =>
        (withRelay which
           {| value := value r; subscribers := subs; stop := stop r;
              roomSubscriptions := roomSubscriptions r |} w, false)
    end
  else
    (withRelay which
       {| value := value r; subscribers := subs; stop := stop r;
          roomSubscriptions := roomSubscriptions r |} w, true).

(** [unsubscribes.forEach (u => u ())]: an exception ends the loop. *)
Fixpoint forEachUnsubscribe (us : list (Which * nat)) (w : World) : World * bool :=
  match us with
  | [] => (w, true)
  | (which, id) :: rest =>
      match unsubscribe which id w with
      | (w', true) => forEachUnsubscribe rest w'
      | (w', false) => (w', false)
      end
  end.

(** [cleanUp ()] of [combineStores]. *)
Definition cleanUp (w : World) : World * bool :=
  forEachUnsubscribe (unsubscribes w) w.

(** The subscriber that the start function of a relay store installs on
    a room stream: what it hands to [set], if anything. *)
Definition roomSubscriber (enableMchadTLs : bool)
  (mchadUsers : gmap string bool) (v : option RelayItem) : option RelayItem :=
  match v with
  | Some (ArchiveItem e) =>
      match Mchad.getArchiveSubscriber enableMchadTLs mchadUsers (Some e) with
      | Some e' => Some (ArchiveItem e')
      | None => None
      end
  | Some (LiveItem m) =>
      match Mchad.getLiveTranslationsSubscriber enableMchadTLs mchadUsers (Some m) with
      | Some m' => Some (LiveItem m')
      | None => None
      end
  | None => None
  end.

(** The stream of [room] pushes [v]: when the subscriber of the start
    function is installed on it and lets [v] through, [set (v)] stores it
    in the relay store, which, being started, runs its subscribers, each
    of them [combined.set (v)]. *)
Definition push (enableMchadTLs : bool) (mchadUsers : gmap string bool)
  (which : Which) (room : nat) (v : option RelayItem) (w : World) : World :=
  let r := relay which w in
  if existsb (Nat.eqb room) (roomSubscriptions r) then
    match roomSubscriber enableMchadTLs mchadUsers v with
    | Some item =>
        let w' :=
          withRelay which
            {| value := Some item; subscribers := subscribers r;
               stop := stop r; roomSubscriptions := roomSubscriptions r |} w in
        match stop r with
        | Some _ =>
            fold_left (fun x _ => combinedSet (Some item) x) (subscribers r) w'
        | None => w'
        end
    | None => w
    end
  else w.

End Stores.

(** ** Concrete inputs

    Instances of the imported functions and sample data, on which the
    statements below are evaluated. *)

Module Samples.

Local Open Scope string_scope.
Local Open Scope Z_scope.

(** A marker of the form "[xx] " in front of the text; the parse result
    is the text after it. *)
Definition parseTag (s : string) : option string :=
  match s with
  | String "[" (String _ (String _ (String "]" (String " " rest)))) => Some rest
  | _ => None
  end.

Definition isParsed (p : option string) : bool :=
  match p with Some _ => true | None => false end.

(** One possible [replaceFirstTranslation], which takes the marker off
    the first span of the rich content.  The function of [filter.js] is
    not part of the two files; this one only serves to run the classifier
    on sample messages. *)
Definition stripFirstSpan (m : Message) : Message :=
  {| text := text m;
     messageArray :=
       match messageArray m with
       | it :: rest =>
           {| item_type := item_type it;
              item_text := match parseTag (item_text it) with
                           | Some r => r
                           | None => item_text it
                           end |} :: rest
       | [] => []
       end;
     author := author m;
     authorId := authorId m;
     langCode := langCode m;
     messageId := messageId m;
     timestamp := timestamp m;
     types := types m;
     timestampMs := timestampMs m |}.

(** The classifier with: every text on the allow list, the author
    "Troll" on the deny list, moderators 2, owners 8, verified 4. *)
Definition classify : Sources.Toggles -> option Message -> Sources.Outcome :=
  Sources.attachFilters (fun _ => true) (fun _ => false) (fun _ => false)
    (String.eqb "Troll") string parseTag isParsed Some stripFirstSpan 2 8 4.

Definition toggles : Sources.Toggles :=
  {| Sources.showModMessage := true; Sources.showVerifiedMessage := true |}.

Definition chatMessage (who txt : string) (roles : Z) : Message :=
  {| text := txt;
     messageArray := [ {| item_type := "text"; item_text := txt |} ];
     author := who;
     authorId := who;
     langCode := None;
     messageId := IdString "m1";
     timestamp := "03:18 PM";
     types := roles;
     timestampMs := 318 |}.

Definition setTimestamp (m : Message) (time : string) : Message :=
  {| text := text m;
     messageArray := messageArray m;
     author := author m;
     authorId := authorId m;
     langCode := langCode m;
     messageId := messageId m;
     timestamp := time;
     types := types m;
     timestampMs := timestampMs m |}.

(** Languages given by their code, matched by equality with the token. *)
Definition languages : list string := ["en"; "jp"; "es"].

Definition tagCode : string -> option string :=
  Mchad.getRoomTagLanguageCode string (fun c => c) languages String.eqb.

(** The script of the scenario. *)
Definition script : list Mchad.MCHADTL :=
  [ {| Mchad.Stext := "--Stream Start--"; Mchad.Stime := 1000 |};
    {| Mchad.Stext := "hello"; Mchad.Stime := 1005 |} ].

Definition archiveRoom : Mchad.MCHADArchiveRoom :=
  {| Mchad.Room := "Translator"; Mchad.Link := "YT_abc"; Mchad.Tags := "en" |}.

Definition liveRoom : Mchad.MCHADLiveRoom :=
  {| Mchad.Nick := "Translator"; Mchad.liveTags := "en" |}.

Definition scriptMessages : list Message :=
  fst (Mchad.getArchiveFromRoom string (fun c => c) languages String.eqb 64
         archiveRoom script 0).

(** A relay message, the entry that [addUnix] makes of it, and the
    registry after [getArchive] registered the author of a script made of
    that entry. *)
Definition relayMessage : Message := chatMessage "Translator" "hello" 64.

Definition archiveEntry : Mchad.Timed := Mchad.addUnix relayMessage.

Definition registered : gmap string bool :=
  Mchad.registerAuthors [[archiveEntry]] ∅.

Definition noLive : Mchad.Rooms := {| Mchad.live := []; Mchad.vod := [] |}.

Definition oneLive : Mchad.Rooms :=
  {| Mchad.live := [liveRoom]; Mchad.vod := [] |}.

End Samples.

(** ** Code units of a string *)

Module Text.

(** Some code unit of [s] satisfies [p]. *)
Fixpoint anyChar (p : ascii -> bool) (s : string) : bool :=
  match s with
  | EmptyString => false
  | String c r => p c || anyChar p r
  end.

(** [s] holds the code unit [c]. *)
Definition hasChar (c : ascii) (s : string) : bool := anyChar (Ascii.eqb c) s.

End Text.

(** ** [sources.js]: messages of the primary chat *)

Module Chat.

Local Open Scope Z_scope.

(** The author of a chat item ([Ytc.ParsedMessage.author]). *)
Record YtcAuthor := {
  name : string;
  id : string;
  authorTypes : list string
}.

(** A chat item as the background page delivers it; of its spans the
    code reads [type] and [text]. *)
Record YtcParsedMessage := {
  message : list MessageItem;
  ytcAuthor : YtcAuthor;
  ytcTimestamp : string;
  ytcMessageId : string;
  showtime : Z
}.

(** [item.type === 'text' || item.type === 'link'] *)
Definition isTextOrLink (item : MessageItem) : bool :=
  String.eqb (item_type item) "text" || String.eqb (item_type item) "link".

Section Convert.

(** [AuthorType[t]] of [constants.js]; for a [t] that is not a key the
    lookup is [undefined], which [|] takes as 0. *)
Variable AuthorType : string -> Z.

(** [author.types.reduce ((flag, t) => flag | AuthorType[t], 0)] *)
Definition typeFlag (authorTypes : list string) : Z :=
  fold_left (fun flag t => JSBits.or32 flag (AuthorType t)) authorTypes 0.

Definition ytcToMsg (ytcMessage : YtcParsedMessage) : Message :=
  let text :=
    String.concat ""
      (map item_text (List.filter isTextOrLink (message ytcMessage))) in
  let author := ytcAuthor ytcMessage in
  {| text := text;
     timestamp := ytcTimestamp ytcMessage;
     author := name author;
     authorId := id author;
     langCode := None;
     types := typeFlag (authorTypes author);
     messageArray := message ytcMessage;
     messageId := IdString (ytcMessageId ytcMessage);
     timestampMs := showtime ytcMessage |}.

End Convert.

(** What [message (author, msg, timestamp)] builds for the dummy event
    source; [dummyShowtime] is [None] for [NaN]. *)
Record DummyMessage := {
  dummyAuthor : string;
  dummyMessage : list MessageItem;
  dummyTimestamp : string;
  dummyShowtime : option Z
}.

(** [(l, r) => l * 10 + r] on results of [parseInt]. *)
Definition shiftAdd (l r : option Z) : option Z :=
  match l, r with
  | Some a, Some b => Some (a * 10 + b)
  | _, _ => None
  end.

(** [timestamp.split (':').map (e => parseInt (e)).reduce ((l, r) =>
    l * 10 + r)] *)
Definition showtimeOf (timestamp : string) : option Z :=
  match map JSNumber.parseInt (JS.splitChar ":" timestamp) with
  | [] => None
  | first :: rest => fold_left shiftAdd rest first
  end.

Definition dummy (author msg timestamp : string) : DummyMessage :=
  {| dummyAuthor := author;
     dummyMessage := [ {| item_type := "text"; item_text := msg |} ];
     dummyTimestamp := timestamp;
     dummyShowtime := showtimeOf timestamp |}.

(** The events of [DummyYTCEventSource]. *)
Inductive DummyEvent :=
| InfoDelivery (currentTime : Z)
| MessageChunk (isReplay : bool) (messages : list DummyMessage).

(** [this.events] as the constructor sets it (the accented letter of
    the fourth message is the code unit 237). *)
Definition dummyEvents : list DummyEvent :=
  [ InfoDelivery 0;
    MessageChunk false
      [ dummy "Author 2" "Hey there" "03:16 PM";
        dummy "Author 1" "Hello there" "03:15 PM" ];
    MessageChunk false
      [ dummy "Author 4" "[en] hello there" "03:18 PM";
        dummy "Author 3"
          ("[es] hola all" ++ String (ascii_of_nat 237) EmptyString)
          "03:17 PM" ];
    MessageChunk false [ dummy "Author 5" "hello again" "03:19 PM" ] ].

(** [addEventListener (_eventType, cb)]: the callback joins [this.subs],
    whatever the event type. *)
Definition addEventListener {Callback} (eventType : string) (cb : Callback)
  (subs : list Callback) : list Callback := subs ++ [cb].

(** The calls [sub ({ data })] that [start ()] makes, in order: for each
    event, each callback. *)
Definition deliver {Callback Data} (subs : list Callback) (events : list Data)
  : list (Callback * Data) :=
  flat_map (fun data => map (fun sub => (sub, data)) subs) events.

Definition start {Callback} (subs : list Callback)
  : list (Callback * DummyEvent) := deliver subs dummyEvents.

End Chat.

(** ** [mchad.js]: the display time of a live message *)

Module LiveTime.

(** [\d] *)
Definition isDigit (c : ascii) : bool :=
  let n := nat_of_ascii c in ((48 <=? n) && (n <=? 57))%nat.

(** [/:\d\d /] matches at the start of [s]. *)
Definition matchesHere (s : string) : bool :=
  match s with
  | String c0 (String d1 (String d2 (String c3 _))) =>
      Ascii.eqb c0 ":" && isDigit d1 && isDigit d2 && Ascii.eqb c3 " "
  | _ => false
  end.

(** What follows the four code units of a match. *)
Definition afterMatch (s : string) : string :=
  match s with
  | String _ (String _ (String _ (String _ rest))) => rest
  | _ => EmptyString
  end.

(** [time.replace (/:\d\d /, ' ')]: the first match, if there is one,
    becomes one space. *)
Fixpoint removeSeconds (time : string) : string :=
  match time with
  | EmptyString => EmptyString
  | String c rest =>
      if matchesHere time then String " " (afterMatch time)
      else String c (removeSeconds rest)
  end.

(** Some position of [s] starts a match. *)
Fixpoint hasMatch (s : string) : bool :=
  match s with
  | EmptyString => false
  | String _ rest => matchesHere s || hasMatch rest
  end.

End LiveTime.

(** ** Environments of the handshake *)

Module YtcEnv.

(** A port that accepts every registration; timers fire. *)
Definition accepting (e : Ytc.Effect) : list Ytc.Event :=
  match e with
  | Ytc.PostRegisterClient _ =>
      [Ytc.PortMessage (Ytc.RegisterClientResponse true "")]
  | Ytc.SetTimeout _ => [Ytc.TimerFired]
  | _ => []
  end.

(** A port that never answers. *)
Definition silent (e : Ytc.Effect) : list Ytc.Event :=
  match e with
  | Ytc.SetTimeout _ => [Ytc.TimerFired]
  | _ => []
  end.

(** The state after a sequence of events. *)
Definition after (paramsPopout : bool) (evs : list Ytc.Event) (st : Ytc.State)
  : Ytc.State :=
  fold_left (fun s ev => snd (Ytc.step paramsPopout ev s)) evs st.

(** What the source does during a sequence of events. *)
Fixpoint effectsOf (paramsPopout : bool) (evs : list Ytc.Event) (st : Ytc.State)
  : list Ytc.Effect :=
  match evs with
  | [] => []
  | ev :: rest =>
      fst (Ytc.step paramsPopout ev st)
      ++ effectsOf paramsPopout rest (snd (Ytc.step paramsPopout ev st))
  end.

Definition isPost (e : Ytc.Effect) : bool :=
  match e with Ytc.PostRegisterClient _ => true | _ => false end.

Definition isTimeout (e : Ytc.Effect) : bool :=
  match e with Ytc.SetTimeout _ => true | _ => false end.

End YtcEnv.

(** * Properties *)

(** ** The classifier *)

Section ClassifierFacts.

Variable textWhitelisted textBlacklisted : string -> bool.
Variable authorWhitelisted authorBlacklisted : string -> bool.
Variable Parsed : Type.
Variable parseTranslation : string -> option Parsed.
Variable isTranslation : option Parsed -> bool.
Variable parsedMsg : Parsed -> option string.
Variable replaceFirstTranslation : Message -> Message.
Variable moderator owner verifiedFlag : Z.

Local Abbreviation attachFilters :=
  (Sources.attachFilters textWhitelisted textBlacklisted authorWhitelisted
     authorBlacklisted Parsed parseTranslation isTranslation parsedMsg
     replaceFirstTranslation moderator owner verifiedFlag).

Local Abbreviation isBlacklisted :=
  (Sources.isBlacklisted textBlacklisted authorBlacklisted).

Lemma isBlacklisted_true message :
  isBlacklisted message = true <->
  textBlacklisted (text message) = true \/ authorBlacklisted (author message) = true.
Proof. unfold Sources.isBlacklisted. apply orb_true_iff. Qed.

Lemma setStoreMessage_frame msg txt :
  Sources.sameFrame (Sources.setStoreMessage msg txt) msg.
Proof. unfold Sources.sameFrame; simpl; tauto. Qed.

Lemma setStoreMessage_same msg : Sources.setStoreMessage msg None = msg.
Proof. destruct msg; reflexivity. Qed.

(** C1.  A message of the primary chat whose text matches a deny pattern
    or whose author is on a deny list is written to no stream, whatever
    the toggles are and whatever the translation-marker test and the
    whitelist test say about it. *)
Theorem blacklisted_never_routed (t : Sources.Toggles) (message : Message) :
  textBlacklisted (text message) = true \/
  authorBlacklisted (author message) = true ->
  attachFilters t (Some message) = Sources.NoWrite.
Proof.
  intros H. apply isBlacklisted_true in H.
  unfold Sources.attachFilters. now rewrite H.
Qed.

(** X29.  On the whitelist, moderator and verified routes the value
    written is the incoming message, no field changed.  On the
    translation-marker route it is a copy of
    [replaceFirstTranslation (message)]: every field other than [text]
    is that of the replaced message, and [text] is [parsed.msg] when
    there is one, else the text of the replaced message. *)
Theorem written_value_frame (t : Sources.Toggles) (message : Message)
  (s : Sources.Stream) (v : Message) :
  attachFilters t (Some message) = Sources.Write s v ->
  let txt := JS.trim (text message) in
  if JS.truthy txt && isTranslation (parseTranslation txt) then
    s = Sources.ChatTranslations /\
    exists p, parseTranslation txt = Some p /\
      Sources.sameFrame v (replaceFirstTranslation message) /\
      text v = match parsedMsg p with
               | Some residual => residual
               | None => text (replaceFirstTranslation message)
               end
  else v = message.
Proof.
  unfold Sources.attachFilters. cbv zeta.
  destruct (isBlacklisted message); [discriminate |].
  destruct (JS.truthy (JS.trim (text message)) &&
            isTranslation (parseTranslation (JS.trim (text message)))).
  - destruct (parseTranslation (JS.trim (text message))) as [p |];
      [| discriminate].
    intros H. injection H as <- <-. split; [reflexivity |].
    exists p. split; [reflexivity |]. split.
    + apply setStoreMessage_frame.
    + reflexivity.
  - rewrite setStoreMessage_same.
    repeat match goal with |- context [if ?b then _ else _] => destruct b end;
      intros H; try discriminate; now injection H as _ <-.
Qed.

Lemma sameFrame_refl (a : Message) : Sources.sameFrame a a.
Proof. unfold Sources.sameFrame; tauto. Qed.

(** What the fields other than [text] of a written value have to do with
    the incoming message is in the hands of [replaceFirstTranslation]:
    they are those of the incoming message whenever the replaced message
    has them. *)
Lemma written_value_of_incoming (t : Sources.Toggles) (message : Message)
  (s : Sources.Stream) (v : Message) :
  Sources.sameFrame (replaceFirstTranslation message) message ->
  attachFilters t (Some message) = Sources.Write s v ->
  Sources.sameFrame v message.
Proof.
  intros Hkept. unfold Sources.attachFilters. cbv zeta.
  destruct (isBlacklisted message); [discriminate |].
  destruct (JS.truthy (JS.trim (text message)) &&
            isTranslation (parseTranslation (JS.trim (text message)))).
  - destruct (parseTranslation (JS.trim (text message))) as [p |];
      [| discriminate].
    intros H. injection H as _ <-. exact Hkept.
  - rewrite setStoreMessage_same.
    repeat match goal with |- context [if ?b then _ else _] => destruct b end;
      intros H; try discriminate; injection H as _ <-; apply sameFrame_refl.
Qed.

End ClassifierFacts.

(** Witness of C1: "Troll" is on the deny list, and the text of the
    message carries a marker and is on the allow list. *)
Lemma blacklisted_never_routed_witness :
  Samples.parseTag "[en] hi" = Some "hi"%string /\
  Samples.classify Samples.toggles
    (Some (Samples.chatMessage "Troll" "[en] hi" 2)) = Sources.NoWrite.
Proof.
  split; [reflexivity |].
  apply (blacklisted_never_routed (fun _ => true) (fun _ => false)
           (fun _ => false) (String.eqb "Troll") string Samples.parseTag
           Samples.isParsed Some Samples.stripFirstSpan 2 8 4).
  right. reflexivity.
Defined.

(** Witness of X29, on a message with a marker and one possible
    [replaceFirstTranslation]. *)
Lemma written_value_frame_witness :
  Sources.sameFrame
    (Sources.setStoreMessage
       (Samples.stripFirstSpan (Samples.chatMessage "Author 4" "[en] hi" 0))
       (Some "hi"%string))
    (Samples.stripFirstSpan (Samples.chatMessage "Author 4" "[en] hi" 0)).
Proof.
  pose proof (written_value_frame (fun _ => true) (fun _ => false)
           (fun _ => false) (String.eqb "Troll") string Samples.parseTag
           Samples.isParsed Some Samples.stripFirstSpan 2 8 4
           Samples.toggles (Samples.chatMessage "Author 4" "[en] hi" 0)
           Sources.ChatTranslations _ eq_refl) as H.
  simpl in H. destruct H as [_ [p [Hp [Hframe _]]]]. exact Hframe.
Defined.

(** ** The Suppression Registry and the relay subscribers *)

Section RegistryFacts.

Import Mchad.

Lemma mchadUsersGet_lookup (users : gmap string bool) a b :
  users !! a = Some b -> mchadUsersGet users a = b.
Proof. unfold mchadUsersGet. now intros ->. Qed.

Lemma mchadUsersGet_absent (users : gmap string bool) a :
  users !! a = None -> mchadUsersGet users a = false.
Proof. unfold mchadUsersGet. now intros ->. Qed.

(** Registering an author stores the flag that [get] read: an author
    that was not a key becomes one, with [false]. *)
Lemma register_new_author (users : gmap string bool) a :
  users !! a = None ->
  mchadUsersSet a (mchadUsersGet users a) users !! a = Some false.
Proof.
  intros H. unfold mchadUsersSet. rewrite (mchadUsersGet_absent _ _ H).
  apply lookup_insert_eq.
Qed.

(** C2, as amended.  A relay message, archive or live, whose author is
    stored in the registry with the flag [true] is not forwarded; one
    whose author is stored with the flag [false] is forwarded when relay
    translations are enabled. *)
Theorem suppressed_author_not_forwarded (enableMchadTLs : bool)
  (users : gmap string bool) :
  (forall e : Timed, users !! author (tl e) = Some true ->
     getArchiveSubscriber enableMchadTLs users (Some e) = None) /\
  (forall m : Message, users !! author m = Some true ->
     getLiveTranslationsSubscriber enableMchadTLs users (Some m) = None) /\
  (forall e : Timed, users !! author (tl e) = Some false ->
     getArchiveSubscriber true users (Some e) = Some e) /\
  (forall m : Message, users !! author m = Some false ->
     getLiveTranslationsSubscriber true users (Some m) = Some m).
Proof.
  unfold getArchiveSubscriber, getLiveTranslationsSubscriber.
  repeat split; intros x H; rewrite (mchadUsersGet_lookup _ _ _ H);
    simpl; try reflexivity; now rewrite andb_false_r.
Qed.

End RegistryFacts.

(** C2 as stated fails: after [getArchive] has registered the author of
    a script in an empty registry, the author is a key of the registry,
    and both subscribers still forward a message of that author. *)
Lemma present_author_forwarded :
  Samples.registered !! "Translator"%string = Some false /\
  Mchad.getArchiveSubscriber true Samples.registered (Some Samples.archiveEntry)
  = Some Samples.archiveEntry /\
  Mchad.getLiveTranslationsSubscriber true Samples.registered
    (Some Samples.relayMessage)
  = Some Samples.relayMessage.
Proof.
  assert (H : Samples.registered !! "Translator"%string = Some false).
  { unfold Samples.registered, Mchad.registerAuthors. simpl.
    apply register_new_author. apply lookup_empty. }
  split; [exact H |].
  split.
  - unfold Mchad.getArchiveSubscriber.
    simpl author. now rewrite (mchadUsersGet_lookup _ _ _ H).
  - unfold Mchad.getLiveTranslationsSubscriber.
    simpl author. now rewrite (mchadUsersGet_lookup _ _ _ H).
Qed.

(** Witness of the amended C2. *)
Lemma suppressed_author_not_forwarded_witness :
  Mchad.getLiveTranslationsSubscriber true {[ "Translator"%string := true ]}
    (Some (Samples.chatMessage "Translator" "hello" 64)) = None.
Proof.
  apply (proj1 (proj2 (suppressed_author_not_forwarded true
                         {[ "Translator"%string := true ]}))).
  apply lookup_singleton_eq.
Defined.

(** ** Archive scripts: what is kept, and in which order *)

Section ScriptFacts.

Import Mchad JSNumber.

Lemma eqNumber_refl a : eqNumber a a.
Proof. destruct a; simpl; [exact I | reflexivity]. Qed.

Lemma eqNumber_sym a b : eqNumber a b -> eqNumber b a.
Proof. destruct a, b; simpl; auto. intros H. now symmetry. Qed.

Lemma eqNumber_trans a b c : eqNumber a b -> eqNumber b c -> eqNumber a c.
Proof.
  destruct a, b, c; simpl; auto; try contradiction.
  intros H1 H2. now rewrite H1.
Qed.

Lemma add_eqNumber a a' b b' :
  eqNumber a a' -> eqNumber b b' -> eqNumber (add a b) (add a' b').
Proof.
  destruct a, a', b, b'; simpl; auto; try contradiction.
  intros H1 H2. now rewrite H1, H2.
Qed.

Lemma add_assoc a b c : eqNumber (add (add a b) c) (add a (add b c)).
Proof. destruct a, b, c; simpl; auto. symmetry. apply Qplus_assoc. Qed.

Lemma add_zero_r a : eqNumber (add a (Num 0)) a.
Proof. destruct a; simpl; auto. apply Qplus_0_r. Qed.

Lemma geZero_eqNumber a b : eqNumber a b -> geZero a = geZero b.
Proof.
  destruct a as [| p], b as [| q]; simpl; try contradiction; auto.
  intros H. apply eq_true_iff_eq. rewrite !Qle_bool_iff. now rewrite H.
Qed.

Lemma le_eqNumber a a' b b' :
  eqNumber a a' -> eqNumber b b' -> le a b -> le a' b'.
Proof.
  destruct a, a', b, b'; simpl; auto; try contradiction.
  intros H1 H2 H. now rewrite <- H1, <- H2.
Qed.

(** Summing from the left, starting at the first element, is summing
    everything. *)
Lemma fold_left_add (l : list Number) (a : Number) :
  eqNumber (fold_left add l a) (add a (fold_right add (Num 0) l)).
Proof.
  revert a. induction l as [| x l IH]; intros a; simpl.
  - apply eqNumber_sym, add_zero_r.
  - eapply eqNumber_trans; [apply IH |]. apply add_assoc.
Qed.

Lemma mapIndexFrom_map {A B C} (f : B -> Z -> C) (g : A -> B) i (l : list A) :
  mapIndexFrom f i (map g l) = mapIndexFrom (fun x j => f (g x) j) i l.
Proof.
  revert i. induction l as [| x l IH]; intros i; simpl; [reflexivity |].
  now rewrite IH.
Qed.

Lemma splitChar_not_nil sep s : JS.splitChar sep s <> [].
Proof.
  destruct s as [| c r]; simpl; [discriminate |].
  destruct (Ascii.eqb c sep); [discriminate |].
  destruct (JS.splitChar sep r); discriminate.
Qed.

(** The integer that the code recomputes is the recomputed offset of the
    specification. *)
Lemma archiveTimeToInt_recomputedOffset (s : string) :
  eqNumber (archiveTimeToInt s) (recomputedOffset s).
Proof.
  unfold archiveTimeToInt, recomputedOffset.
  rewrite mapIndexFrom_map.
  pose proof (splitChar_not_nil ":" s) as Hne.
  destruct (JS.splitChar ":" s) as [| p ps]; [contradiction |].
  simpl mapIndexFrom. cbv iota. simpl fold_right.
  apply fold_left_add.
Qed.

(** *** The sort *)

Lemma geZero_isNum a : geZero a = true -> isNum a.
Proof. destruct a; simpl; [discriminate | auto]. Qed.

Lemma leb_true a b : isNum a -> isNum b -> leb a b = true -> le a b.
Proof.
  destruct a, b; simpl; try contradiction. intros _ _. apply Qle_bool_imp_le.
Qed.

Lemma leb_false a b : isNum a -> isNum b -> leb a b = false -> le b a.
Proof.
  destruct a as [| p], b as [| q]; simpl; try contradiction. intros _ _ H.
  destruct (Qlt_le_dec q p) as [Hlt | Hle].
  - now apply Qlt_le_weak.
  - apply Qle_bool_iff in Hle. congruence.
Qed.

Lemma le_trans a b c : le a b -> le b c -> le a c.
Proof.
  destruct a, b, c; simpl; try contradiction. apply Qle_trans.
Qed.

Variable A : Type.
Variable key : A -> Number.

Local Abbreviation ordered := (fun x y : A => le (key x) (key y)).

Lemma insertBy_perm x l : Permutation (insertBy key x l) (x :: l).
Proof.
  induction l as [| y l IH]; simpl; [reflexivity |].
  destruct (leb (key x) (key y)); [reflexivity |].
  rewrite IH. apply perm_swap.
Qed.

Lemma sortBy_perm l : Permutation (sortBy key l) l.
Proof.
  induction l as [| x l IH]; simpl; [reflexivity |].
  rewrite insertBy_perm. now constructor.
Qed.

Lemma insertBy_hd x y l :
  ordered y x -> HdRel ordered y l -> HdRel ordered y (insertBy key x l).
Proof.
  intros Hyx Hl. destruct l as [| z l]; simpl; [now constructor |].
  destruct (leb (key x) (key z)); constructor; [assumption |].
  now inversion Hl.
Qed.

Lemma insertBy_sorted x l :
  isNum (key x) -> Forall (fun y => isNum (key y)) l ->
  Sorted ordered l -> Sorted ordered (insertBy key x l).
Proof.
  intros Hx Hall Hs. induction Hs as [| y l Hs IH Hhd]; simpl.
  - repeat constructor.
  - inversion Hall as [| ? ? Hy Hl]; subst.
    destruct (leb (key x) (key y)) eqn:E.
    + constructor; [now constructor |]. constructor.
      now apply leb_true.
    + constructor; [now apply IH |].
      apply insertBy_hd; [| assumption]. now apply leb_false.
Qed.

Lemma sortBy_sorted l :
  Forall (fun y => isNum (key y)) l -> Sorted ordered (sortBy key l).
Proof.
  induction 1 as [| x l Hx Hl IH]; simpl; [constructor |].
  apply insertBy_sorted; [assumption | | assumption].
  eapply Permutation_Forall; [symmetry; apply sortBy_perm | assumption].
Qed.

(** The sort is stable: with the keys in order already, nothing moves. *)
Lemma sortBy_stable l :
  Forall (fun y => isNum (key y)) l -> Sorted ordered l -> sortBy key l = l.
Proof.
  intros Hall Hs. induction Hs as [| x l Hs IH Hhd]; simpl; [reflexivity |].
  inversion Hall as [| ? ? Hx Hl]; subst. rewrite (IH Hl).
  destruct Hhd as [| y l Hxy]; simpl; [reflexivity |].
  inversion Hl; subst.
  destruct (key x) as [| p] eqn:Ex, (key y) as [| q] eqn:Ey;
    simpl in *; try contradiction.
  apply Qle_bool_iff in Hxy. now rewrite Hxy.
Qed.

End ScriptFacts.

(** Every script that [getArchive] registers has a first entry. *)
Lemma getArchiveScripts_author fetched script :
  In script (Mchad.getArchiveScripts fetched) ->
  exists e rest, script = e :: rest /\
    Mchad.getScriptAuthor script = Some (author (Mchad.tl e)).
Proof.
  unfold Mchad.getArchiveScripts. rewrite filter_In. intros [_ Hne].
  destruct script as [| e rest]; [discriminate |]. now exists e, rest.
Qed.

Example streamStart_samples :
  map (Regex.test Mchad.streamStart)
    ["--Stream Start--"; "xx -- the sTREAM will staRt soon -- yy";
     "--streamstart--"; "hello"; "--Start Stream--"; "- -Stream Start- -"]%string
  = [true; true; true; false; false; false].
Proof. vm_compute. reflexivity. Qed.

Example splitWhiteSpace_samples :
  map JS.splitWhiteSpace [" en  jp "; ""; "en"]%string
  = [[""; "en"; "jp"; ""]; [""]; ["en"]]%string.
Proof. reflexivity. Qed.

Example parseInt_samples :
  map JSNumber.parseInt [" -12ab"; "0x1F"; ""; "05"; "+7"; "-"; "x1"]%string
  = [Some (-12); Some 31; None; Some 5; Some 7; None; None]%Z.
Proof. reflexivity. Qed.

Example archiveTimeToInt_samples :
  Mchad.archiveTimeToInt "01:02:03" = JSNumber.Num 3723 /\
  Mchad.archiveTimeToInt "-1:-1:-5" = JSNumber.Num (-3665) /\
  Mchad.archiveTimeToInt "0:1" = JSNumber.Num 60 /\
  Mchad.archiveTimeToInt "1::3" = JSNumber.NaN.
Proof. repeat split; vm_compute; reflexivity. Qed.

(** Entries before the start of the stream and entries without a
    readable time are dropped; equal times keep their order. *)
Example getScript_sample :
  map (fun e => (text (Mchad.tl e), timestamp (Mchad.tl e)))
    (Mchad.getScript
       (map (fun '(txt, time) =>
               Samples.setTimestamp (Samples.chatMessage "Translator" txt 64) time)
          [("a", "00:00:05"); ("b", "-1:-1:-5"); ("c", "00:00:01");
           ("d", "x"); ("e", "00:00:05")]%string))
  = [("c", "00:00:01"); ("a", "00:00:05"); ("e", "00:00:05")]%string.
Proof. vm_compute. reflexivity. Qed.


(** ** The language of a room *)

Section LanguageFacts.

Variable Language : Type.
Variable code : Language -> string.
Variable languagesInfo : list Language.
Variable isLangMatch : string -> Language -> bool.

Local Abbreviation possibleLanguages :=
  (Mchad.possibleLanguages Language languagesInfo isLangMatch).

Local Abbreviation getRoomTagLanguageCode :=
  (Mchad.getRoomTagLanguageCode Language code languagesInfo isLangMatch).

(** The matches of a token are the languages of the table that match it,
    in the order of the table. *)
Lemma possibleLanguages_In token lang :
  In lang (possibleLanguages token) <->
  In lang languagesInfo /\ isLangMatch token lang = true.
Proof. apply filter_In. Qed.

Lemma nth_error_last {A} (l : list A) (x : A) :
  nth_error (l ++ [x]) (length (l ++ [x]) - 1) = Some x.
Proof.
  rewrite length_app. simpl.
  replace (length l + 1 - 1)%nat with (length l) by lia.
  rewrite nth_error_app2 by lia. now rewrite Nat.sub_diag.
Qed.

Lemma concat_map_nil {A B} (f : A -> list B) (l : list A) :
  (forall x, In x l -> f x = []) -> concat (map f l) = [].
Proof.
  induction l as [| x l IH]; intros H; simpl; [reflexivity |].
  rewrite (H x) by now left. apply IH. intros y Hy. apply H. now right.
Qed.

(** C4.  The tag is split on white space and each token is mapped to
    its matches.  When some token has a match and no later token has
    one, the result is the code of the last match of that token; when no
    token has a match, and only then, the result is [null]. *)
Theorem language_of_last_match (tag : string) :
  (forall pre token post langs lang,
      JS.splitWhiteSpace tag = pre ++ token :: post ->
      possibleLanguages token = langs ++ [lang] ->
      (forall later, In later post -> possibleLanguages later = []) ->
      getRoomTagLanguageCode tag = Some (code lang)) /\
  ((forall token, In token (JS.splitWhiteSpace tag) ->
      possibleLanguages token = []) <->
   getRoomTagLanguageCode tag = None).
Proof.
  unfold Mchad.getRoomTagLanguageCode. split.
  - intros pre token post langs lang Hsplit Hlast Hpost.
    rewrite Hsplit, map_app, concat_app. simpl.
    rewrite Hlast, (concat_map_nil _ _ Hpost), app_nil_r, app_assoc.
    now rewrite nth_error_last.
  - split.
    + intros Hnone. now rewrite (concat_map_nil _ _ Hnone).
    + intros Hnull token Htoken.
      destruct (possibleLanguages token) as [| lang langs] eqn:Hmatch;
        [reflexivity | exfalso].
      assert (Hin : In lang (concat (map possibleLanguages
                                       (JS.splitWhiteSpace tag)))).
      { apply in_concat. exists (possibleLanguages token).
        split; [now apply in_map | rewrite Hmatch; now left]. }
      destruct (concat (map possibleLanguages (JS.splitWhiteSpace tag)))
        as [| first others] using rev_ind; [contradiction |].
      now rewrite nth_error_last in Hnull.
Qed.

End LanguageFacts.

(** Witness of C4: of the tokens of " en  jp x", "jp" is the last with a
    match. *)
Lemma language_of_last_match_witness :
  JS.splitWhiteSpace " en  jp x" = [""; "en"; "jp"; "x"]%string /\
  Samples.tagCode " en  jp x" = Some "jp"%string /\
  Samples.tagCode "x y" = None.
Proof.
  split; [reflexivity |]. split.
  - apply (proj1 (language_of_last_match string (fun c => c) Samples.languages
                    String.eqb " en  jp x")
             [""; "en"]%string "jp"%string ["x"]%string [] "jp"%string).
    + reflexivity.
    + reflexivity.
    + intros later [<- | []]. reflexivity.
  - apply (proj1 (proj2 (language_of_last_match string (fun c => c)
                           Samples.languages String.eqb "x y"))).
    intros token [<- | [<- | []]]; reflexivity.
Defined.

(** ** The first time of an archive script *)

Section FirstTimeFacts.

Import Mchad.

Lemma find_first {A} (f : A -> bool) (pre : list A) (x : A) (post : list A) :
  (forall y, In y pre -> f y = false) -> f x = true ->
  find f (pre ++ x :: post) = Some x.
Proof.
  intros Hpre Hx. induction pre as [| y pre IH]; simpl.
  - now rewrite Hx.
  - rewrite (Hpre y) by now left. apply IH. intros z Hz. apply Hpre. now right.
Qed.

Lemma find_none {A} (f : A -> bool) (l : list A) :
  (forall y, In y l -> f y = false) -> find f l = None.
Proof.
  intros H. induction l as [| y l IH]; simpl; [reflexivity |].
  rewrite (H y) by now left. apply IH. intros z Hz. apply H. now right.
Qed.

Lemma getFirstTime_marker pre e post :
  (forall x, In x pre -> isStreamStart x = false) -> isStreamStart e = true ->
  getFirstTime (pre ++ e :: post) = Stime e.
Proof.
  intros Hpre He. unfold getFirstTime. now rewrite (find_first _ _ _ _ Hpre He).
Qed.

Lemma getFirstTime_no_marker e rest :
  (forall x, In x (e :: rest) -> isStreamStart x = false) ->
  getFirstTime (e :: rest) = Stime e.
Proof.
  intros H. unfold getFirstTime. now rewrite (find_none _ _ H).
Qed.

End FirstTimeFacts.

(** C5, as amended.  [getFirstTime] gives the [Stime] of the first entry
    whose text matches the stream-start pattern; without such an entry,
    the [Stime] of the first entry; for an empty script, 0.  For the
    script of the scenario the first time is 1000, and the second entry
    has the offset 1005 - 1000 = 5 milliseconds, which an [HH:MM:SS]
    display shows as "00:00:00". *)
Theorem getFirstTime_spec :
  (forall pre e post,
      (forall x, In x pre -> Mchad.isStreamStart x = false) ->
      Mchad.isStreamStart e = true ->
      Mchad.getFirstTime (pre ++ e :: post) = Mchad.Stime e) /\
  (forall e rest,
      (forall x, In x (e :: rest) -> Mchad.isStreamStart x = false) ->
      Mchad.getFirstTime (e :: rest) = Mchad.Stime e) /\
  Mchad.getFirstTime [] = 0%Z /\
  Mchad.getFirstTime Samples.script = 1000%Z /\
  map timestampMs Samples.scriptMessages = [0; 5]%Z /\
  map timestamp Samples.scriptMessages = ["00:00:00"; "00:00:00"]%string.
Proof.
  split; [exact getFirstTime_marker |].
  split; [exact getFirstTime_no_marker |].
  repeat split; reflexivity.
Qed.

(** Witness of C5: the marker in second place, and no marker at all. *)
Lemma getFirstTime_spec_witness :
  Mchad.getFirstTime
    [ {| Mchad.Stext := "hello"; Mchad.Stime := 7 |};
      {| Mchad.Stext := "-- stream START --"; Mchad.Stime := 9 |};
      {| Mchad.Stext := "bye"; Mchad.Stime := 11 |} ] = 9%Z /\
  Mchad.getFirstTime
    [ {| Mchad.Stext := "hello"; Mchad.Stime := 7 |};
      {| Mchad.Stext := "bye"; Mchad.Stime := 11 |} ] = 7%Z.
Proof.
  split.
  - apply (proj1 getFirstTime_spec
             [ {| Mchad.Stext := "hello"; Mchad.Stime := 7 |} ]
             {| Mchad.Stext := "-- stream START --"; Mchad.Stime := 9 |}
             [ {| Mchad.Stext := "bye"; Mchad.Stime := 11 |} ]).
    + intros x [<- | []]. reflexivity.
    + reflexivity.
  - apply (proj1 (proj2 getFirstTime_spec)).
    intros x [<- | [<- | []]]; reflexivity.
Defined.

(** C5 as stated fails in its scenario: the offset of the second entry
    is 5 milliseconds, not 5000, and its display is not "00:00:05". *)
Lemma scenario_offset_is_not_5000 :
  map timestampMs Samples.scriptMessages <> [0; 5000]%Z /\
  map timestamp Samples.scriptMessages <> ["00:00:00"; "00:00:05"]%string.
Proof. split; vm_compute; discriminate. Qed.

(** ** Waiting for a live room *)

Section RetryFacts.

Import Mchad.

(** One turn of the loop on a resolution without live rooms. *)
Lemma run_retry_empty {videoLink retryInterval} fuel rooms results :
  live rooms = [] ->
  run (S (S (S fuel))) (getLiveRoomsWithRetry videoLink retryInterval)
    (rooms :: results) =
  match run fuel (getLiveRoomsWithRetry videoLink retryInterval) results with
  | Some (obs, r) =>
      Some (Resolved videoLink :: Slept (retryInterval * 1000) :: obs, r)
  | None => None
  end.
Proof.
  intros Hempty. destruct rooms as [lv vd]. simpl in Hempty. subst lv.
  unfold getLiveRoomsWithRetry at 1. cbn.
  fold (getLiveRoomsWithRetry videoLink retryInterval).
  destruct (run fuel (getLiveRoomsWithRetry videoLink retryInterval) results)
    as [[obs r] |]; reflexivity.
Qed.

(** The last turn, on a resolution with live rooms. *)
Lemma run_retry_found {videoLink retryInterval} fuel rooms results :
  live rooms <> [] ->
  run (S (S fuel)) (getLiveRoomsWithRetry videoLink retryInterval)
    (rooms :: results) = Some ([Resolved videoLink], live rooms).
Proof.
  intros Hfound. destruct rooms as [lv vd]. simpl in *.
  destruct lv as [| room others]; [contradiction |].
  reflexivity.
Qed.

End RetryFacts.

(** C6.  Against resolutions of which the first ones find no live room,
    [getLiveRoomsWithRetry] resolves, sleeps [retryInterval] seconds
    after each resolution without a live room, and returns the live
    rooms of the first resolution that has one, without a sleep after
    it.  With the interval 30 of [getLiveTranslations] and two
    resolutions without a live room, it sleeps exactly twice, 30000
    milliseconds each time, before it returns the rooms of the third. *)
Theorem retry_until_live :
  (forall videoLink retryInterval (empties : list Mchad.Rooms)
      (found : Mchad.Rooms) (later : list Mchad.Rooms) (fuel : nat),
      (forall r, In r empties -> Mchad.live r = []) ->
      Mchad.live found <> [] ->
      (3 * length empties + 2 <= fuel)%nat ->
      Mchad.run fuel (Mchad.getLiveRoomsWithRetry videoLink retryInterval)
        (empties ++ found :: later)
      = Some (Mchad.waiting videoLink retryInterval (length empties)
                ++ [Mchad.Resolved videoLink],
              Mchad.live found)) /\
  (forall videoLink (first second third : Mchad.Rooms)
      (later : list Mchad.Rooms) (fuel : nat),
      Mchad.live first = [] -> Mchad.live second = [] ->
      Mchad.live third <> [] -> (8 <= fuel)%nat ->
      exists obs,
        Mchad.run fuel (Mchad.getLiveTranslationsRooms videoLink)
          (first :: second :: third :: later)
        = Some (obs, Mchad.live third) /\
        List.filter Mchad.isSlept obs = [Mchad.Slept 30000; Mchad.Slept 30000]).
Proof.
  assert (General : forall videoLink retryInterval (empties : list Mchad.Rooms)
      (found : Mchad.Rooms) (later : list Mchad.Rooms) (fuel : nat),
      (forall r, In r empties -> Mchad.live r = []) ->
      Mchad.live found <> [] ->
      (3 * length empties + 2 <= fuel)%nat ->
      Mchad.run fuel (Mchad.getLiveRoomsWithRetry videoLink retryInterval)
        (empties ++ found :: later)
      = Some (Mchad.waiting videoLink retryInterval (length empties)
                ++ [Mchad.Resolved videoLink],
              Mchad.live found)).
  { intros videoLink retryInterval empties found later.
    induction empties as [| r empties IH]; intros fuel Hempty Hfound Hfuel.
    - simpl in Hfuel. destruct fuel as [| [| fuel]]; try lia.
      simpl app. now rewrite run_retry_found.
    - simpl in Hfuel. destruct fuel as [| [| [| fuel]]]; try lia.
      simpl app. rewrite run_retry_empty by (apply Hempty; now left).
      rewrite IH; [reflexivity | | assumption | lia].
      intros r' Hr'. apply Hempty. now right. }
  split; [exact General |].
  intros videoLink first second third later fuel H1 H2 H3 Hfuel.
  eexists. split.
  - apply (General videoLink 30%Z [first; second] third later fuel);
      [| assumption | simpl; lia].
    intros r [<- | [<- | []]]; assumption.
  - reflexivity.
Qed.

(** Witness of C6. *)
Lemma retry_until_live_witness :
  Mchad.run 8 (Mchad.getLiveRoomsWithRetry "YT_abc" 30)
    [Samples.noLive; Samples.noLive; Samples.oneLive]
  = Some ([Mchad.Resolved "YT_abc"; Mchad.Slept 30000;
           Mchad.Resolved "YT_abc"; Mchad.Slept 30000;
           Mchad.Resolved "YT_abc"],
          [Samples.liveRoom]).
Proof.
  apply (proj1 retry_until_live "YT_abc"%string 30%Z
           [Samples.noLive; Samples.noLive] Samples.oneLive [] 8%nat).
  - intros r [<- | [<- | []]]; reflexivity.
  - discriminate.
  - simpl. lia.
Defined.

(** ** The message counter *)

Section CounterFacts.

Import Mchad.
Local Open Scope Z_scope.

Variable Language : Type.
Variable code : Language -> string.
Variable languagesInfo : list Language.
Variable isLangMatch : string -> Language -> bool.
Variable mchadFlag : Z.
Variable liveUnixToTimestamp : Z -> string.

Local Abbreviation mchadToMessage := (Mchad.mchadToMessage mchadFlag).

Local Abbreviation construct :=
  (Mchad.construct Language code languagesInfo isLangMatch mchadFlag
     liveUnixToTimestamp).

Local Abbreviation constructAll :=
  (Mchad.constructAll Language code languagesInfo isLangMatch mchadFlag
     liveUnixToTimestamp).

Lemma idsFrom_0 c : idsFrom c 0 = [].
Proof. reflexivity. Qed.

Lemma idsFrom_S c n : idsFrom c (S n) = (c + 1) :: idsFrom (c + 1) n.
Proof.
  unfold idsFrom. simpl. f_equal.
  rewrite <- seq_shift, map_map. apply map_ext. intros i. lia.
Qed.

Lemma idsFrom_app c n k :
  idsFrom c (n + k) = idsFrom c n ++ idsFrom (c + Z.of_nat n) k.
Proof.
  revert c. induction n as [| n IH]; intros c.
  - simpl. now rewrite Z.add_0_r.
  - simpl Nat.add. rewrite !idsFrom_S, IH. simpl. do 3 f_equal. lia.
Qed.

Lemma idsFrom_bounds c n i : In i (idsFrom c n) -> c < i <= c + Z.of_nat n.
Proof.
  unfold idsFrom. rewrite in_map_iff. intros [j [<- Hj]].
  apply in_seq in Hj. lia.
Qed.

Lemma idsFrom_sorted c n : StronglySorted Z.lt (idsFrom c n).
Proof.
  revert c. induction n as [| n IH]; intros c.
  - constructor.
  - rewrite idsFrom_S. constructor; [apply IH |].
    apply List.Forall_forall. intros i Hi. apply idsFrom_bounds in Hi. lia.
Qed.

Lemma sorted_NoDup (l : list Z) : StronglySorted Z.lt l -> List.NoDup l.
Proof.
  induction 1 as [| x l Hs IH Hall]; constructor; [| assumption].
  intros Hin. rewrite List.Forall_forall in Hall.
  specialize (Hall _ Hin). lia.
Qed.

Lemma mchadToMessage_numbers author unixToTimestamp unixToNumber langCode data c :
  messageId
    (fst (mchadToMessage author unixToTimestamp unixToNumber langCode data c))
  = IdNumber (c + 1) /\
  snd (mchadToMessage author unixToTimestamp unixToNumber langCode data c)
  = c + 1.
Proof. split; reflexivity. Qed.

Lemma mapM_numbers (f : MCHADTL -> Counter Message) (script : list MCHADTL) :
  (forall data c, messageId (fst (f data c)) = IdNumber (c + 1) /\
                  snd (f data c) = c + 1) ->
  numbers (mapM f script).
Proof.
  intros Hf. induction script as [| data script IH]; intros c.
  - simpl. split; [reflexivity | lia].
  - simpl. unfold mbind, counter_bind, mret, counter_ret.
    destruct (Hf data c) as [Hid Hc].
    destruct (f data c) as [m c1]. simpl in Hid, Hc. subst c1.
    destruct (IH (c + 1)) as [Hids Hc'].
    destruct (mapM f script (c + 1)) as [ms c2].
    cbn [fst snd length map] in *.
    rewrite idsFrom_S. cbn [map]. rewrite Hid, Hids. split; [reflexivity | lia].
Qed.

Lemma construct_numbers (k : Construction) : numbers (construct k).
Proof.
  destruct k as [room script | enable room data]; simpl.
  - apply mapM_numbers. intros data c. apply mchadToMessage_numbers.
  - intros c. unfold getRoomTranslations.
    destruct enable; simpl; [| split; [reflexivity | lia]].
    destruct data as [d |]; simpl; [| split; [reflexivity | lia]].
    destruct (String.eqb (flag d) "insert" || String.eqb (flag d) "update");
      simpl; split; try reflexivity; lia.
Qed.

Lemma mapM_construct_numbers (ks : list Construction) (c : Z) :
  map messageId (concat (fst (mapM construct ks c)))
  = map IdNumber (idsFrom c (length (concat (fst (mapM construct ks c))))) /\
  snd (mapM construct ks c)
  = c + Z.of_nat (length (concat (fst (mapM construct ks c)))).
Proof.
  revert c. induction ks as [| k ks IH]; intros c.
  - simpl. split; [reflexivity | lia].
  - destruct (construct_numbers k c) as [Hk Hck].
    cbn [mapM]. unfold mbind, counter_bind, mret, counter_ret.
    destruct (construct k c) as [ms c1]. cbn [fst snd] in Hk, Hck. subst c1.
    destruct (IH (c + Z.of_nat (length ms))) as [Hids Hc].
    destruct (mapM construct ks (c + Z.of_nat (length ms))) as [mss c2].
    cbn [fst snd concat] in *.
    rewrite length_app, idsFrom_app, !map_app, Hk, Hids.
    split; [reflexivity | lia].
Qed.

Lemma constructAll_numbers (ks : list Construction) : numbers (constructAll ks).
Proof.
  intros c. destruct (mapM_construct_numbers ks c) as [Hids Hc].
  unfold Mchad.constructAll, mbind, counter_bind, mret, counter_ret.
  destruct (mapM construct ks c) as [mss c']. cbn [fst snd] in *.
  now split.
Qed.

(** C8.  Whatever relay messages are constructed, from archive scripts
    and from live pushes in any order, and whatever the counter was
    before: their [messageId]s are the successive numbers after the
    counter, hence strictly increasing in creation order, and no two
    messages share one. *)
Theorem messageIds_strictly_increasing (ks : list Construction) (c : Z) :
  exists ids : list Z,
    map messageId (fst (constructAll ks c)) = map IdNumber ids /\
    StronglySorted Z.lt ids /\
    Forall (fun i => c < i) ids /\
    List.NoDup (map messageId (fst (constructAll ks c))).
Proof.
  destruct (constructAll_numbers ks c) as [Hids _].
  exists (idsFrom c (length (fst (constructAll ks c)))).
  split; [exact Hids |]. split; [apply idsFrom_sorted |]. split.
  - apply List.Forall_forall. intros i Hi. apply idsFrom_bounds in Hi. lia.
  - rewrite Hids. apply Injective_map_NoDup.
    + intros a b H. now injection H.
    + apply sorted_NoDup, idsFrom_sorted.
Qed.

End CounterFacts.

(** ** The handshake of [ytcSource] *)

Section HandshakeFacts.

Import Ytc.
Local Open Scope Z_scope.

Variable paramsPopout : bool.

Local Abbreviation step := (Ytc.step paramsPopout).
Local Abbreviation drive := (Ytc.drive paramsPopout).

Lemma registerClient_tryRegister st :
  tryRegister st <= tryRegister (snd (registerClient st)).
Proof.
  unfold registerClient. destruct (frameInfo st); simpl; lia.
Qed.

(** No event makes [tryRegister] smaller. *)
Lemma step_tryRegister ev st : tryRegister st <= tryRegister (snd (step ev st)).
Proof.
  destruct ev as [type info | r |]; simpl.
  - unfold onWindowMessage.
    destruct (negb paramsPopout && String.eqb type "frameInfo"
              && negb (portRegistered st)); simpl; [| lia].
    unfold registerClient. simpl. destruct info; simpl; lia.
  - destruct r as [count | | | | success reason |]; simpl; try lia.
    destruct success; simpl; [lia |].
    destruct (tryRegister st <? 3); simpl; lia.
  - apply registerClient_tryRegister.
Qed.

Lemma steps_tryRegister evs st :
  tryRegister st <=
  tryRegister (fold_left (fun s ev => snd (step ev s)) evs st).
Proof.
  revert st. induction evs as [| ev evs IH]; intros st; simpl; [lia |].
  etransitivity; [apply step_tryRegister | apply IH].
Qed.

Lemma drive_idle react fuel st : drive react fuel st [] = ([], st, []).
Proof. destruct fuel; reflexivity. Qed.

Lemma drive_cons react fuel st ev rest :
  drive react (S fuel) st (ev :: rest) =
  let '(later, final, remaining) :=
    drive react fuel (snd (step ev st))
      (rest ++ flat_map react (fst (step ev st))) in
  (fst (step ev st) ++ later, final, remaining).
Proof. simpl. now destruct (Ytc.step paramsPopout ev st). Qed.

(** From the state after the first registration, a port that rejects
    every registration sees two more of them, 500 milliseconds after
    each of the first two rejections, and the third rejection is
    logged. *)
Lemma drive_rejected info reason fuel :
  (5 <= fuel)%nat ->
  drive (rejecting reason) fuel
    {| portRegistered := false; tryRegister := 1; frameInfo := Some info |}
    [PortMessage (RegisterClientResponse false reason)]
  = ([SetTimeout 500; PostRegisterClient info;
      SetTimeout 500; PostRegisterClient info;
      ConsoleError
        ("Failed to connect to YTC source after 3 attempts: " ++ reason)],
     {| portRegistered := false; tryRegister := 3; frameInfo := Some info |},
     []).
Proof.
  intros Hfuel. do 5 (destruct fuel as [| fuel]; [lia |]).
  cbn -[String.append]. destruct fuel; reflexivity.
Qed.

End HandshakeFacts.

(** The handshake does not stop at 3 retries, and giving up does not end
    the registrations.  Outside a pop-out, against a port that rejects
    every registration, the source sets the timer twice only (2 retries,
    3 registrations in all) before it logs the failure; and a
    [frameInfo] message of the window that comes after the log sends a
    fourth registration, the handler of the window having no test on the
    count. *)
Lemma registration_after_giving_up :
  Ytc.ytcSource false "" "" (Ytc.rejecting "busy") 6
    [Ytc.WindowMessage "frameInfo"
       (Some {| Ytc.tabId := Some 12%Z; Ytc.frameId := Some 3%Z |})]
  = ([Ytc.PostRegisterClient {| Ytc.tabId := Some 12%Z; Ytc.frameId := Some 3%Z |};
      Ytc.SetTimeout 500;
      Ytc.PostRegisterClient {| Ytc.tabId := Some 12%Z; Ytc.frameId := Some 3%Z |};
      Ytc.SetTimeout 500;
      Ytc.PostRegisterClient {| Ytc.tabId := Some 12%Z; Ytc.frameId := Some 3%Z |};
      Ytc.ConsoleError "Failed to connect to YTC source after 3 attempts: busy"],
     {| Ytc.portRegistered := false; Ytc.tryRegister := 3;
        Ytc.frameInfo := Some {| Ytc.tabId := Some 12%Z; Ytc.frameId := Some 3%Z |} |},
     []) /\
  length
    (List.filter YtcEnv.isTimeout
       (fst (fst (Ytc.ytcSource false "" "" (Ytc.rejecting "busy") 6
                    [Ytc.WindowMessage "frameInfo"
                       (Some {| Ytc.tabId := Some 12%Z;
                                Ytc.frameId := Some 3%Z |})]))))
  = 2%nat /\
  Ytc.step false
    (Ytc.WindowMessage "frameInfo"
       (Some {| Ytc.tabId := Some 12%Z; Ytc.frameId := Some 3%Z |}))
    {| Ytc.portRegistered := false; Ytc.tryRegister := 3;
       Ytc.frameInfo := Some {| Ytc.tabId := Some 12%Z; Ytc.frameId := Some 3%Z |} |}
  = ([Ytc.PostRegisterClient {| Ytc.tabId := Some 12%Z; Ytc.frameId := Some 3%Z |}],
     {| Ytc.portRegistered := false; Ytc.tryRegister := 4;
        Ytc.frameInfo := Some {| Ytc.tabId := Some 12%Z; Ytc.frameId := Some 3%Z |} |}).
Proof. split; [| split]; reflexivity. Qed.

(** C9, as amended.  A failure response schedules one more registration,
    500 milliseconds later, while fewer than 3 registrations were sent,
    and is logged with [console.error] once 3 were sent; it never throws.
    Against a port that rejects every registration the source therefore
    registers 3 times in all (the first time and two retries), logs the
    third rejection, and is left with nothing pending.  Since no event
    lowers the count of registrations, no failure response schedules a
    registration after that.  The registrations themselves do not end
    there: outside a pop-out, as long as the port is not registered,
    every [frameInfo] message of the window sends one more, whatever the
    count. *)
Theorem handshake_gives_up :
  (forall st reason, (Ytc.tryRegister st < 3)%Z ->
     Ytc.onPortMessage (Ytc.RegisterClientResponse false reason) st
     = ([Ytc.SetTimeout 500], st)) /\
  (forall st reason, (3 <= Ytc.tryRegister st)%Z ->
     Ytc.onPortMessage (Ytc.RegisterClientResponse false reason) st
     = ([Ytc.ConsoleError
           ("Failed to connect to YTC source after 3 attempts: " ++ reason)],
        st)) /\
  (forall tab frame reason fuel, (5 <= fuel)%nat ->
     let info := {| Ytc.tabId := JSNumber.parseInt tab;
                    Ytc.frameId := JSNumber.parseInt frame |} in
     Ytc.ytcSource true tab frame (Ytc.rejecting reason) fuel []
     = ([Ytc.PostRegisterClient info;
         Ytc.SetTimeout 500; Ytc.PostRegisterClient info;
         Ytc.SetTimeout 500; Ytc.PostRegisterClient info;
         Ytc.ConsoleError
           ("Failed to connect to YTC source after 3 attempts: " ++ reason)],
        {| Ytc.portRegistered := false; Ytc.tryRegister := 3;
           Ytc.frameInfo := Some info |},
        [])) /\
  (forall tab frame info reason fuel, (6 <= fuel)%nat ->
     Ytc.ytcSource false tab frame (Ytc.rejecting reason) fuel
       [Ytc.WindowMessage "frameInfo" (Some info)]
     = ([Ytc.PostRegisterClient info;
         Ytc.SetTimeout 500; Ytc.PostRegisterClient info;
         Ytc.SetTimeout 500; Ytc.PostRegisterClient info;
         Ytc.ConsoleError
           ("Failed to connect to YTC source after 3 attempts: " ++ reason)],
        {| Ytc.portRegistered := false; Ytc.tryRegister := 3;
           Ytc.frameInfo := Some info |},
        [])) /\
  (forall popout st evs reason, (3 <= Ytc.tryRegister st)%Z ->
     let st' := fold_left (fun s ev => snd (Ytc.step popout ev s)) evs st in
     Ytc.onPortMessage (Ytc.RegisterClientResponse false reason) st'
     = ([Ytc.ConsoleError
           ("Failed to connect to YTC source after 3 attempts: " ++ reason)],
        st')) /\
  (forall st info, Ytc.portRegistered st = false ->
     Ytc.step false (Ytc.WindowMessage "frameInfo" (Some info)) st
     = ([Ytc.PostRegisterClient info],
        {| Ytc.portRegistered := false;
           Ytc.tryRegister := (Ytc.tryRegister st + 1)%Z;
           Ytc.frameInfo := Some info |})).
Proof.
  assert (Late : forall st reason, (3 <= Ytc.tryRegister st)%Z ->
     Ytc.onPortMessage (Ytc.RegisterClientResponse false reason) st
     = ([Ytc.ConsoleError
           ("Failed to connect to YTC source after 3 attempts: " ++ reason)],
        st)).
  { intros st reason H. unfold Ytc.onPortMessage.
    apply Z.ltb_ge in H. now rewrite H. }
  split; [| split; [exact Late | split; [| split; [| split]]]].
  - intros st reason H. unfold Ytc.onPortMessage.
    apply Z.ltb_lt in H. now rewrite H.
  - intros tab frame reason fuel Hfuel info.
    unfold Ytc.ytcSource, Ytc.setUp. cbn -[String.append Ytc.drive].
    fold info. now rewrite drive_rejected.
  - intros tab frame info reason fuel Hfuel.
    destruct fuel as [| fuel]; [lia |].
    unfold Ytc.ytcSource, Ytc.setUp. cbn -[String.append Ytc.drive].
    rewrite drive_cons. cbn -[String.append Ytc.drive].
    rewrite drive_rejected by lia. reflexivity.
  - intros popout st evs reason H st'. apply Late.
    etransitivity; [exact H | apply steps_tryRegister].
  - intros st info Hst. simpl. unfold Ytc.onWindowMessage.
    rewrite Hst. reflexivity.
Qed.

(** Witness of C9. *)
Lemma handshake_gives_up_witness :
  Ytc.ytcSource true "12" "3" (Ytc.rejecting "busy") 5 []
  = ([Ytc.PostRegisterClient {| Ytc.tabId := Some 12%Z; Ytc.frameId := Some 3%Z |};
      Ytc.SetTimeout 500;
      Ytc.PostRegisterClient {| Ytc.tabId := Some 12%Z; Ytc.frameId := Some 3%Z |};
      Ytc.SetTimeout 500;
      Ytc.PostRegisterClient {| Ytc.tabId := Some 12%Z; Ytc.frameId := Some 3%Z |};
      Ytc.ConsoleError "Failed to connect to YTC source after 3 attempts: busy"],
     {| Ytc.portRegistered := false; Ytc.tryRegister := 3;
        Ytc.frameInfo := Some {| Ytc.tabId := Some 12%Z; Ytc.frameId := Some 3%Z |} |},
     []).
Proof.
  apply (proj1 (proj2 (proj2 handshake_gives_up)) "12" "3" "busy" 5%nat)%string.
  lia.
Defined.

(** ** Teardown of the combined relay store *)

Section TeardownFacts.

Import Stores.

(** Had a start function returned its teardown itself, [stop ()] would
    end the room subscriptions; what the store gets from an [async]
    start function is a promise, and calling it throws. *)
Lemma callStop_teardown (gone rooms : list nat) :
  (forall r, In r rooms -> In r gone) ->
  callStop (Teardown gone) rooms = Some [].
Proof.
  intros Hsub. unfold callStop. f_equal.
  induction rooms as [| r rooms IH]; simpl; [reflexivity |].
  assert (Hr : existsb (Nat.eqb r) gone = true).
  { apply existsb_exists. exists r. split; [| apply Nat.eqb_refl].
    apply Hsub. now left. }
  rewrite Hr. simpl. apply IH. intros x Hx. apply Hsub. now right.
Qed.

Lemma callStop_promise result rooms :
  callStop PendingPromise rooms = None /\
  callStop (SettledPromise result) rooms = None.
Proof. split; reflexivity. Qed.

(** After both start functions have subscribed to their rooms, [cleanUp]
    throws on its first call, and every room subscription is still
    there. *)
Lemma cleanUp_keeps_rooms (archiveRooms liveRooms : list nat) :
  let w := settle Live liveRooms
             (settle Archive archiveRooms (combineStores start)) in
  snd (cleanUp w) = false /\
  roomSubscriptions (archive (fst (cleanUp w))) = archiveRooms /\
  roomSubscriptions (liveRelay (fst (cleanUp w))) = liveRooms /\
  subscribers (liveRelay (fst (cleanUp w))) = [0%nat].
Proof. repeat split. Qed.

(** A teardown that comes while a start function is still waiting (for
    the rooms, or in the retry loop) does not stop it either: the room
    subscriptions are made afterwards. *)
Lemma cleanUp_before_settle (liveRooms : list nat) :
  snd (cleanUp (combineStores start)) = false /\
  roomSubscriptions
    (liveRelay (settle Live liveRooms (fst (cleanUp (combineStores start)))))
  = liveRooms.
Proof. split; reflexivity. Qed.

End TeardownFacts.

(** C7 fails on the code.  [combineStores] is applied to the archive
    store and the live store; the archive start function subscribes to
    the replays 1 and 2, the live one to the stream of room 7.  Then
    [cleanUp ()] throws in its first call, all three room subscriptions
    and the subscription to the live store are still in place, and the
    next push of room 7 is stored in the combined store. *)
Theorem cleanUp_leaks :
  snd (Stores.cleanUp
         (Stores.settle Stores.Live [7%nat]
            (Stores.settle Stores.Archive [1%nat; 2%nat]
               (Stores.combineStores Stores.start)))) = false /\
  Stores.roomSubscriptions
    (Stores.archive
       (fst (Stores.cleanUp
               (Stores.settle Stores.Live [7%nat]
                  (Stores.settle Stores.Archive [1%nat; 2%nat]
                     (Stores.combineStores Stores.start))))))
  = [1%nat; 2%nat] /\
  Stores.roomSubscriptions
    (Stores.liveRelay
       (fst (Stores.cleanUp
               (Stores.settle Stores.Live [7%nat]
                  (Stores.settle Stores.Archive [1%nat; 2%nat]
                     (Stores.combineStores Stores.start))))))
  = [7%nat] /\
  Stores.emitted
    (Stores.push true ∅ Stores.Live 7 (Some (Stores.LiveItem Samples.relayMessage))
       (fst (Stores.cleanUp
               (Stores.settle Stores.Live [7%nat]
                  (Stores.settle Stores.Archive [1%nat; 2%nat]
                     (Stores.combineStores Stores.start))))))
  = [Some (Stores.LiveItem Samples.relayMessage)].
Proof. repeat split. Qed.

(** * Further properties of the code *)

(** ** The classifier, route by route *)

Section BitFacts.

Local Open Scope Z_scope.

Lemma low_range (z : Z) : 0 <= JSBits.low z < 2 ^ 32.
Proof. unfold JSBits.low. apply Z.mod_pos_bound. reflexivity. Qed.

Lemma low_mask (z : Z) : JSBits.low z = Z.land z (Z.ones 32).
Proof. unfold JSBits.low. now rewrite Z.land_ones. Qed.

Lemma low_low (z : Z) : JSBits.low (JSBits.low z) = JSBits.low z.
Proof.
  unfold JSBits.low at 1. apply Z.mod_small, low_range.
Qed.

Lemma low_land (a b : Z) :
  JSBits.low (Z.land (JSBits.low a) (JSBits.low b))
  = Z.land (JSBits.low a) (JSBits.low b).
Proof.
  rewrite !low_mask. apply Z.bits_inj'. intros i _.
  rewrite !Z.land_spec.
  destruct (Z.testbit a i), (Z.testbit b i), (Z.testbit (Z.ones 32) i);
    reflexivity.
Qed.

Lemma low_lor (a b : Z) :
  JSBits.low (Z.lor (JSBits.low a) (JSBits.low b))
  = Z.lor (JSBits.low a) (JSBits.low b).
Proof.
  rewrite !low_mask. apply Z.bits_inj'. intros i _.
  rewrite !Z.land_spec, !Z.lor_spec, !Z.land_spec.
  destruct (Z.testbit a i), (Z.testbit b i), (Z.testbit (Z.ones 32) i);
    reflexivity.
Qed.

Lemma toInt32_zero (z : Z) : JSBits.toInt32 z = 0 <-> JSBits.low z = 0.
Proof.
  unfold JSBits.toInt32. pose proof (low_range z) as H. cbv zeta.
  destruct (JSBits.low z <? 2 ^ 31) eqn:E; lia.
Qed.

Lemma low_toInt32 (z : Z) : JSBits.low (JSBits.toInt32 z) = JSBits.low z.
Proof.
  unfold JSBits.toInt32. cbv zeta.
  destruct (JSBits.low z <? 2 ^ 31).
  - apply low_low.
  - unfold JSBits.low at 1.
    replace (JSBits.low z - 2 ^ 32) with (JSBits.low z + (-1) * 2 ^ 32) by lia.
    rewrite Z_mod_plus_full. apply low_low.
Qed.

Lemma and32_zero (a b : Z) :
  JSBits.and32 a b = 0 <-> Z.land (JSBits.low a) (JSBits.low b) = 0.
Proof. unfold JSBits.and32. now rewrite toInt32_zero, low_land. Qed.

Lemma low_or32 (a b : Z) :
  JSBits.low (JSBits.or32 a b) = Z.lor (JSBits.low a) (JSBits.low b).
Proof. unfold JSBits.or32. now rewrite low_toInt32, low_lor. Qed.

Lemma and32_or32_zero (a b c : Z) :
  JSBits.and32 a (JSBits.or32 b c) = 0 <->
  JSBits.and32 a b = 0 /\ JSBits.and32 a c = 0.
Proof.
  rewrite !and32_zero, low_or32, Z.land_lor_distr_r.
  apply Z.lor_eq_0_iff.
Qed.

Lemma testbit_low (z i : Z) :
  0 <= i < 32 -> Z.testbit (JSBits.low z) i = Z.testbit z i.
Proof. intros H. unfold JSBits.low. apply Z.mod_pow2_bits_low. lia. Qed.

Lemma testbit_toInt32 (z i : Z) :
  0 <= i < 32 -> Z.testbit (JSBits.toInt32 z) i = Z.testbit z i.
Proof.
  intros H. now rewrite <- (testbit_low (JSBits.toInt32 z)), low_toInt32,
    testbit_low.
Qed.

Lemma toInt32_range (z : Z) : - 2 ^ 31 <= JSBits.toInt32 z < 2 ^ 31.
Proof.
  unfold JSBits.toInt32. pose proof (low_range z) as H. cbv zeta.
  destruct (JSBits.low z <? 2 ^ 31) eqn:E; lia.
Qed.

Lemma toInt32_small (z : Z) :
  - 2 ^ 31 <= z < 2 ^ 31 -> JSBits.toInt32 z = z.
Proof.
  intros H. unfold JSBits.toInt32, JSBits.low. cbv zeta.
  destruct (Z.neg_nonneg_cases z) as [Hneg | Hpos].
  - replace (z mod 2 ^ 32) with (z + 2 ^ 32).
    + destruct (z + 2 ^ 32 <? 2 ^ 31) eqn:E; lia.
    + symmetry. rewrite <- (Z_mod_plus_full z 1 (2 ^ 32)).
      rewrite Z.mul_1_l. apply Z.mod_small. lia.
  - rewrite Z.mod_small by lia.
    destruct (z <? 2 ^ 31) eqn:E; lia.
Qed.

End BitFacts.

Lemma isMod_meets (moderator owner : Z) (msg : Message) :
  Sources.truthyZ (Sources.isMod moderator owner msg) = true <->
  JSBits.and32 (types msg) (JSBits.or32 moderator owner) <> 0%Z.
Proof.
  unfold Sources.isMod, Sources.truthyZ.
  rewrite and32_or32_zero.
  destruct (JSBits.and32 (types msg) moderator =? 0)%Z eqn:E; simpl.
  - apply Z.eqb_eq in E. rewrite negb_true_iff, Z.eqb_neq. tauto.
  - rewrite E. apply Z.eqb_neq in E. simpl. tauto.
Qed.

Section RoutingFacts.

Variable textWhitelisted textBlacklisted : string -> bool.
Variable authorWhitelisted authorBlacklisted : string -> bool.
Variable Parsed : Type.
Variable parseTranslation : string -> option Parsed.
Variable isTranslation : option Parsed -> bool.
Variable parsedMsg : Parsed -> option string.
Variable replaceFirstTranslation : Message -> Message.
Variable moderator owner verifiedFlag : Z.

Local Abbreviation attachFilters :=
  (Sources.attachFilters textWhitelisted textBlacklisted authorWhitelisted
     authorBlacklisted Parsed parseTranslation isTranslation parsedMsg
     replaceFirstTranslation moderator owner verifiedFlag).

Local Abbreviation isBlacklisted :=
  (Sources.isBlacklisted textBlacklisted authorBlacklisted).

Local Abbreviation isWhitelisted :=
  (Sources.isWhitelisted textWhitelisted authorWhitelisted).

Local Abbreviation isMod := (Sources.isMod moderator owner).

Local Abbreviation showIfMod := (Sources.showIfMod moderator owner).

Local Abbreviation showIfVerified := (Sources.showIfVerified verifiedFlag).

Lemma setStoreMessage_None msg : Sources.setStoreMessage msg None = msg.
Proof. destruct msg; reflexivity. Qed.

(** X1.  [isMod] is truthy exactly when the role bits of the message
    meet the moderator bits or the owner bits, that is when
    [types & (moderator | owner)] is not zero, with the 32-bit operators
    of the language. *)
Theorem isMod_truthy_iff (msg : Message) :
  Sources.truthyZ (isMod msg) = true <->
  JSBits.and32 (types msg) (JSBits.or32 moderator owner) <> 0%Z.
Proof. apply isMod_meets. Qed.

Lemma blank_text_routes (t : Sources.Toggles) (message : Message) :
  JS.truthy (JS.trim (text message)) = false ->
  attachFilters t (Some message) = Sources.NoWrite \/
  attachFilters t (Some message) = Sources.Write Sources.Mod message \/
  attachFilters t (Some message) = Sources.Write Sources.Verified message.
Proof.
  intros Hblank. unfold Sources.attachFilters. rewrite Hblank. simpl.
  rewrite setStoreMessage_None.
  destruct (isBlacklisted message); [now left |].
  destruct (showIfMod t message); [right; now left |].
  destruct (showIfVerified t message); [right; now right | now left].
Qed.

(** X2.  A message whose text is empty or all white space never reaches
    the translations stream and never throws: it is dropped, or written
    as it is to the moderator or to the verified stream. *)
Theorem blank_text_not_translated (t : Sources.Toggles) (message : Message) :
  JS.truthy (JS.trim (text message)) = false ->
  attachFilters t (Some message) = Sources.NoWrite \/
  attachFilters t (Some message) = Sources.Write Sources.Mod message \/
  attachFilters t (Some message) = Sources.Write Sources.Verified message.
Proof. apply blank_text_routes. Qed.

(** X3.  The toggles gate the role streams: with [showModMessage] off
    nothing is written to the moderator stream, and with
    [showVerifiedMessage] off nothing is written to the verified
    stream. *)
Theorem toggles_gate_role_streams (t : Sources.Toggles)
  (message : option Message) (v : Message) :
  (Sources.showModMessage t = false ->
   attachFilters t message <> Sources.Write Sources.Mod v) /\
  (Sources.showVerifiedMessage t = false ->
   attachFilters t message <> Sources.Write Sources.Verified v).
Proof.
  destruct message as [m |]; [| split; discriminate].
  unfold Sources.attachFilters, Sources.showIfMod, Sources.showIfVerified.
  split; intros Hoff; rewrite Hoff, andb_false_r;
    repeat match goal with
           | |- context [if ?b then _ else _] => destruct b
           | |- context [match ?o with Some _ => _ | None => _ end] => destruct o
           end; discriminate.
Qed.

(** X4.  The allow list comes before the roles: a message that is not
    blacklisted, has text, carries no translation marker and is
    whitelisted goes to the translations stream, unchanged (its text is
    not trimmed), whatever its roles and the toggles. *)
Theorem whitelisted_goes_to_translations (t : Sources.Toggles)
  (message : Message) :
  isBlacklisted message = false ->
  JS.truthy (JS.trim (text message)) = true ->
  isTranslation (parseTranslation (JS.trim (text message))) = false ->
  isWhitelisted message = true ->
  attachFilters t (Some message)
  = Sources.Write Sources.ChatTranslations message.
Proof.
  intros Hb Ht Hn Hw. unfold Sources.attachFilters.
  rewrite Hb, Ht, Hn, Hw. simpl. now rewrite setStoreMessage_None.
Qed.

(** X5.  Moderators come before verified authors: a message that
    [showIfMod] accepts is never written to the verified stream. *)
Theorem mod_before_verified (t : Sources.Toggles) (message v : Message) :
  showIfMod t message = true ->
  attachFilters t (Some message) <> Sources.Write Sources.Verified v.
Proof.
  intros Hmod. unfold Sources.attachFilters. rewrite Hmod.
  repeat match goal with
         | |- context [if ?b then _ else _] => destruct b
         | |- context [match ?o with Some _ => _ | None => _ end] => destruct o
         end; discriminate.
Qed.

(** X6.  The subscriber throws only when [isTranslation] accepts a
    [null] parse result: with an [isTranslation] that rejects [null], no
    message makes it throw. *)
Theorem no_throw_when_null_rejected (t : Sources.Toggles)
  (message : option Message) :
  isTranslation None = false ->
  attachFilters t message <> Sources.Threw.
Proof.
  intros Hnull. unfold Sources.attachFilters.
  destruct message as [m |]; [| discriminate].
  destruct (isBlacklisted m); [discriminate |].
  destruct (parseTranslation (JS.trim (text m))) as [p |] eqn:Hp.
  - repeat match goal with
           | |- context [if ?b then _ else _] => destruct b
           end; discriminate.
  - rewrite Hnull, andb_false_r.
    repeat match goal with
           | |- context [if ?b then _ else _] => destruct b
           end; discriminate.
Qed.

End RoutingFacts.

(** Witness of X2. *)
Lemma blank_text_not_translated_witness :
  Samples.classify Samples.toggles (Some (Samples.chatMessage "Mod" "   " 2))
  = Sources.Write Sources.Mod (Samples.chatMessage "Mod" "   " 2).
Proof.
  destruct (blank_text_not_translated (fun _ => true) (fun _ => false)
              (fun _ => false) (String.eqb "Troll") string Samples.parseTag
              Samples.isParsed Some Samples.stripFirstSpan 2 8 4
              Samples.toggles (Samples.chatMessage "Mod" "   " 2) eq_refl)
    as [H | [H | H]].
  - discriminate H.
  - exact H.
  - discriminate H.
Defined.

(** Witness of X3. *)
Lemma toggles_gate_role_streams_witness :
  Samples.classify
    {| Sources.showModMessage := false; Sources.showVerifiedMessage := false |}
    (Some (Samples.chatMessage "Mod" "   " 2)) = Sources.NoWrite /\
  Samples.classify
    {| Sources.showModMessage := false; Sources.showVerifiedMessage := false |}
    (Some (Samples.chatMessage "Mod" "   " 2))
  <> Sources.Write Sources.Mod (Samples.chatMessage "Mod" "   " 2).
Proof.
  split; [reflexivity |].
  apply (proj1 (toggles_gate_role_streams (fun _ => true) (fun _ => false)
                  (fun _ => false) (String.eqb "Troll") string Samples.parseTag
                  Samples.isParsed Some Samples.stripFirstSpan 2 8 4
                  {| Sources.showModMessage := false;
                     Sources.showVerifiedMessage := false |}
                  (Some (Samples.chatMessage "Mod" "   " 2))
                  (Samples.chatMessage "Mod" "   " 2))).
  reflexivity.
Defined.

(** Witness of X4. *)
Lemma whitelisted_goes_to_translations_witness :
  Samples.classify Samples.toggles (Some (Samples.chatMessage "Mod" " hi " 2))
  = Sources.Write Sources.ChatTranslations (Samples.chatMessage "Mod" " hi " 2).
Proof.
  apply (whitelisted_goes_to_translations (fun _ => true) (fun _ => false)
           (fun _ => false) (String.eqb "Troll") string Samples.parseTag
           Samples.isParsed Some Samples.stripFirstSpan 2 8 4);
    reflexivity.
Defined.

(** Witness of X5. *)
Lemma mod_before_verified_witness :
  Samples.classify Samples.toggles (Some (Samples.chatMessage "Mod" "   " 6))
  = Sources.Write Sources.Mod (Samples.chatMessage "Mod" "   " 6) /\
  Samples.classify Samples.toggles (Some (Samples.chatMessage "Mod" "   " 6))
  <> Sources.Write Sources.Verified (Samples.chatMessage "Mod" "   " 6).
Proof.
  split; [reflexivity |].
  apply (mod_before_verified (fun _ => true) (fun _ => false)
           (fun _ => false) (String.eqb "Troll") string Samples.parseTag
           Samples.isParsed Some Samples.stripFirstSpan 2 8 4).
  reflexivity.
Defined.

(** Witness of X6. *)
Lemma no_throw_when_null_rejected_witness :
  Samples.isParsed None = false /\
  Samples.classify Samples.toggles (Some (Samples.chatMessage "A" "[en] hi" 0))
  <> Sources.Threw.
Proof.
  split; [reflexivity |].
  apply (no_throw_when_null_rejected (fun _ => true) (fun _ => false)
           (fun _ => false) (String.eqb "Troll") string Samples.parseTag
           Samples.isParsed Some Samples.stripFirstSpan 2 8 4).
  reflexivity.
Defined.

(** ** Strings *)

Section StringFacts.

Local Open Scope string_scope.

Lemma append_cons c (s t : string) :
  String.append (String c s) t = String c (String.append s t).
Proof. reflexivity. Qed.

Lemma append_empty_l (s : string) : String.append "" s = s.
Proof. reflexivity. Qed.

Lemma append_empty_r (s : string) : String.append s "" = s.
Proof.
  induction s as [| c s IH]; [reflexivity |]. now rewrite append_cons, IH.
Qed.

Lemma append_assoc (a b c : string) :
  String.append (String.append a b) c = String.append a (String.append b c).
Proof.
  induction a as [| x a IH]; [reflexivity |]. now rewrite !append_cons, IH.
Qed.

Lemma splitChar_cons sep s :
  exists first rest, JS.splitChar sep s = first :: rest.
Proof.
  destruct s as [| c r]; simpl; [now eexists _, _ |].
  destruct (Ascii.eqb c sep); [now eexists _, _ |].
  destruct (JS.splitChar sep r); now eexists _, _.
Qed.

(** A piece that does not hold the separator is split off as it is. *)
Lemma splitChar_app sep (a b : string) :
  Text.hasChar sep a = false ->
  JS.splitChar sep (a ++ String sep b) = a :: JS.splitChar sep b.
Proof.
  intros Hno. induction a as [| c a IH].
  - rewrite append_empty_l. simpl. now rewrite Ascii.eqb_refl.
  - unfold Text.hasChar in Hno. simpl in Hno.
    apply orb_false_iff in Hno. destruct Hno as [Hc Ha].
    rewrite append_cons. simpl.
    rewrite Ascii.eqb_sym, Hc. now rewrite (IH Ha).
Qed.

Lemma splitChar_whole sep (a : string) :
  Text.hasChar sep a = false -> JS.splitChar sep a = [a].
Proof.
  intros Hno. induction a as [| c a IH]; simpl; [reflexivity |].
  unfold Text.hasChar in Hno. simpl in Hno.
  apply orb_false_iff in Hno. destruct Hno as [Hc Ha].
  rewrite Ascii.eqb_sym, Hc. now rewrite (IH Ha).
Qed.

End StringFacts.

(** ** Chat items on their way to a message *)

Section ChatFacts.

Import Chat.
Local Open Scope Z_scope.

Variable AuthorType : string -> Z.

Local Abbreviation typeFlag := (Chat.typeFlag AuthorType).
Local Abbreviation ytcToMsg := (Chat.ytcToMsg AuthorType).

Lemma concat_empty_app (l1 l2 : list string) :
  String.concat "" (l1 ++ l2)
  = (String.concat "" l1 ++ String.concat "" l2)%string.
Proof.
  induction l1 as [| x l1 IH]; [reflexivity |].
  destruct l1 as [| y l1].
  - destruct l2; simpl; [now rewrite append_empty_r | reflexivity].
  - change (String.concat "" ((x :: y :: l1) ++ l2))
      with (String.append x
              (String.append "" (String.concat "" ((y :: l1) ++ l2)))).
    rewrite IH.
    change (String.concat "" (x :: y :: l1))
      with (String.append x (String.append "" (String.concat "" (y :: l1)))).
    now rewrite !append_empty_l, append_assoc.
Qed.

Lemma fold_or32_testbit (ts : list string) (acc : Z) (i : Z) :
  0 <= i < 32 ->
  Z.testbit (fold_left (fun flag t => JSBits.or32 flag (AuthorType t)) ts acc) i
  = Z.testbit acc i || existsb (fun t => Z.testbit (AuthorType t) i) ts.
Proof.
  intros Hi. revert acc. induction ts as [| t ts IH]; intros acc; simpl.
  - now rewrite orb_false_r.
  - rewrite IH. unfold JSBits.or32.
    rewrite testbit_toInt32, Z.lor_spec, !testbit_low by assumption.
    now rewrite orb_assoc.
Qed.

Lemma fold_or32_range (ts : list string) (acc : Z) :
  - 2 ^ 31 <= acc < 2 ^ 31 ->
  - 2 ^ 31
  <= fold_left (fun flag t => JSBits.or32 flag (AuthorType t)) ts acc
  < 2 ^ 31.
Proof.
  revert acc. induction ts as [| t ts IH]; intros acc Hacc; simpl.
  - assumption.
  - apply IH. apply toInt32_range.
Qed.

(** X7.  The text of a message is the texts of the [text] and [link]
    spans of the chat item, in order: a single [text] or [link] span
    gives its own text, a single span of another kind gives the empty
    text, the text of two runs of spans put together is the two texts put
    together, and so a chat item without a [text] or [link] span (emoji
    only, say) has the empty text. *)
Theorem ytcToMsg_text (author : YtcAuthor) (time mid : string) (shown : Z) :
  (forall item : MessageItem,
     text (ytcToMsg {| message := [item]; ytcAuthor := author;
                       ytcTimestamp := time; ytcMessageId := mid;
                       showtime := shown |})
     = if isTextOrLink item then item_text item else EmptyString) /\
  (forall front back : list MessageItem,
     text (ytcToMsg {| message := front ++ back; ytcAuthor := author;
                       ytcTimestamp := time; ytcMessageId := mid;
                       showtime := shown |})
     = (text (ytcToMsg {| message := front; ytcAuthor := author;
                          ytcTimestamp := time; ytcMessageId := mid;
                          showtime := shown |})
        ++ text (ytcToMsg {| message := back; ytcAuthor := author;
                             ytcTimestamp := time; ytcMessageId := mid;
                             showtime := shown |}))%string) /\
  text (ytcToMsg {| message := []; ytcAuthor := author;
                    ytcTimestamp := time; ytcMessageId := mid;
                    showtime := shown |}) = EmptyString /\
  (forall front : list MessageItem,
     List.forallb (fun item => negb (isTextOrLink item)) front = true ->
     text (ytcToMsg {| message := front; ytcAuthor := author;
                       ytcTimestamp := time; ytcMessageId := mid;
                       showtime := shown |}) = EmptyString).
Proof.
  simpl. split; [| split; [| split]].
  - intros item. now destruct (isTextOrLink item).
  - intros front back.
    now rewrite List.filter_app, map_app, concat_empty_app.
  - reflexivity.
  - intros front Hnone. induction front as [| item front IH]; [reflexivity |].
    simpl in *. apply andb_true_iff in Hnone. destruct Hnone as [Hitem Hrest].
    apply negb_true_iff in Hitem. rewrite Hitem. now apply IH.
Qed.

(** X8.  The role bits of a message are the bitwise or of the flags of
    the author's types, on 32 bits: each of the bits 0 to 31 is set
    exactly when the flag of one of the types has it, and the value is a
    32-bit integer in two's complement.  An author without types has no
    role bit. *)
Theorem ytcToMsg_types_bits (m : YtcParsedMessage) (i : Z) :
  0 <= i < 32 ->
  Z.testbit (types (ytcToMsg m)) i
  = existsb (fun t => Z.testbit (AuthorType t) i) (authorTypes (ytcAuthor m))
  /\ - 2 ^ 31 <= types (ytcToMsg m) < 2 ^ 31.
Proof.
  intros Hi. simpl. unfold Chat.typeFlag. split.
  - rewrite fold_or32_testbit by assumption. now rewrite Z.bits_0.
  - apply fold_or32_range. lia.
Qed.

Lemma typeFlag_absorbs (ts : list string) (t : string) :
  In t ts ->
  Z.land (JSBits.low (AuthorType t)) (JSBits.low (typeFlag ts))
  = JSBits.low (AuthorType t).
Proof.
  intros Hin. apply Z.bits_inj'. intros i Hi.
  rewrite Z.land_spec.
  destruct (Z.lt_ge_cases i 32) as [Hlow | Hhigh].
  - rewrite !testbit_low by lia. unfold Chat.typeFlag.
    rewrite fold_or32_testbit by lia. rewrite Z.bits_0. simpl.
    destruct (Z.testbit (AuthorType t) i) eqn:E; [| reflexivity].
    simpl. apply existsb_exists. now exists t.
  - unfold JSBits.low at 1 3.
    rewrite Z.mod_pow2_bits_high by lia. reflexivity.
Qed.

(** X9.  An author one of whose types has a flag that meets the
    moderator or owner bits (on the 32 bits that [&] and [|] work on) is
    a moderator for the classifier: with [showModMessage] on, [showIfMod]
    accepts the converted message. *)
Theorem ytcToMsg_moderator (moderator owner : Z) (m : YtcParsedMessage)
  (t : string) (toggles : Sources.Toggles) :
  In t (authorTypes (ytcAuthor m)) ->
  JSBits.and32 (AuthorType t) (JSBits.or32 moderator owner) <> 0 ->
  Sources.showModMessage toggles = true ->
  Sources.showIfMod moderator owner toggles (ytcToMsg m) = true.
Proof.
  intros Hin Hmeet Hon. unfold Sources.showIfMod. rewrite Hon, andb_true_r.
  apply (proj2 (isMod_meets moderator owner (ytcToMsg m))).
  simpl types. intros Hzero. apply Hmeet.
  apply and32_zero. apply and32_zero in Hzero.
  rewrite <- (typeFlag_absorbs _ _ Hin), <- Z.land_assoc.
  rewrite Hzero. apply Z.land_0_r.
Qed.

End ChatFacts.

(** Witness of X8. *)
Lemma ytcToMsg_types_bits_witness :
  (0 <= 3 < 32)%Z /\
  Z.testbit
    (types
       (Chat.ytcToMsg (fun t => if String.eqb t "owner" then 8%Z else 0%Z)
          {| Chat.message := [];
             Chat.ytcAuthor := {| Chat.name := "Host"; Chat.id := "UC1";
                                  Chat.authorTypes := ["member"; "owner"] |};
             Chat.ytcTimestamp := "03:15 PM";
             Chat.ytcMessageId := "m7";
             Chat.showtime := 315 |})) 3
  = true.
Proof.
  split; [lia |].
  apply (proj1 (ytcToMsg_types_bits
                  (fun t => if String.eqb t "owner" then 8%Z else 0%Z)
                  {| Chat.message := [];
                     Chat.ytcAuthor :=
                       {| Chat.name := "Host"; Chat.id := "UC1";
                          Chat.authorTypes := ["member"; "owner"] |};
                     Chat.ytcTimestamp := "03:15 PM";
                     Chat.ytcMessageId := "m7";
                     Chat.showtime := 315 |} 3%Z ltac:(lia))).
Defined.

(** The operators keep the low 32 bits only: a flag on bit 32 is no role
    bit, and a flag on bit 31 gives a negative bit set, which is truthy. *)
Example role_bits_are_32_bits :
  types
    (Chat.ytcToMsg (fun _ => 2 ^ 32 + 4)%Z
       {| Chat.message := [];
          Chat.ytcAuthor := {| Chat.name := "Host"; Chat.id := "UC1";
                               Chat.authorTypes := ["owner"] |};
          Chat.ytcTimestamp := "03:15 PM";
          Chat.ytcMessageId := "m7";
          Chat.showtime := 315 |}) = 4%Z /\
  Sources.isMod (2 ^ 32) (2 ^ 33) (Samples.chatMessage "Host" "hello" (2 ^ 32))
  = 0%Z /\
  Sources.isMod (2 ^ 31) 0 (Samples.chatMessage "Host" "hello" (2 ^ 31))
  = (- 2 ^ 31)%Z.
Proof. repeat split. Qed.

(** Witness of X9. *)
Lemma ytcToMsg_moderator_witness :
  Sources.showIfMod 2 8 Samples.toggles
    (Chat.ytcToMsg (fun t => if String.eqb t "owner" then 8%Z else 0%Z)
       {| Chat.message := [];
          Chat.ytcAuthor := {| Chat.name := "Host"; Chat.id := "UC1";
                               Chat.authorTypes := ["member"; "owner"] |};
          Chat.ytcTimestamp := "03:15 PM";
          Chat.ytcMessageId := "m7";
          Chat.showtime := 315 |}) = true.
Proof.
  apply (ytcToMsg_moderator
           (fun t => if String.eqb t "owner" then 8%Z else 0%Z) 2 8 _ "owner").
  - right. now left.
  - discriminate.
  - reflexivity.
Defined.

(** X10.  A chat item without a [text] or [link] span is never written
    to the translations stream, whatever the filters say about its
    author: converted and classified, it is dropped or goes to the
    moderator or verified stream as converted. *)
Theorem spanless_item_not_translated
  (AuthorType : string -> Z)
  (textWhitelisted textBlacklisted authorWhitelisted authorBlacklisted
     : string -> bool)
  (Parsed : Type) (parseTranslation : string -> option Parsed)
  (isTranslation : option Parsed -> bool) (parsedMsg : Parsed -> option string)
  (replaceFirstTranslation : Message -> Message)
  (moderator owner verifiedFlag : Z)
  (t : Sources.Toggles) (m : Chat.YtcParsedMessage) :
  List.forallb (fun item => negb (Chat.isTextOrLink item)) (Chat.message m)
  = true ->
  let attach :=
    Sources.attachFilters textWhitelisted textBlacklisted authorWhitelisted
      authorBlacklisted Parsed parseTranslation isTranslation parsedMsg
      replaceFirstTranslation moderator owner verifiedFlag t in
  attach (Some (Chat.ytcToMsg AuthorType m)) = Sources.NoWrite \/
  attach (Some (Chat.ytcToMsg AuthorType m))
  = Sources.Write Sources.Mod (Chat.ytcToMsg AuthorType m) \/
  attach (Some (Chat.ytcToMsg AuthorType m))
  = Sources.Write Sources.Verified (Chat.ytcToMsg AuthorType m).
Proof.
  intros Hnone attach. apply blank_text_routes.
  assert (Htext : text (Chat.ytcToMsg AuthorType m) = EmptyString).
  { simpl. induction (Chat.message m) as [| item items IH]; [reflexivity |].
    simpl in *. apply andb_true_iff in Hnone. destruct Hnone as [Hitem Hrest].
    apply negb_true_iff in Hitem. rewrite Hitem. now apply IH. }
  now rewrite Htext.
Qed.

(** Witness of X10. *)
Lemma spanless_item_not_translated_witness :
  Samples.classify Samples.toggles
    (Some (Chat.ytcToMsg (fun _ => 0%Z)
             {| Chat.message := [ {| item_type := "emoji"; item_text := "" |} ];
                Chat.ytcAuthor := {| Chat.name := "Fan"; Chat.id := "UC2";
                                     Chat.authorTypes := [] |};
                Chat.ytcTimestamp := "03:15 PM";
                Chat.ytcMessageId := "m8";
                Chat.showtime := 315 |})) = Sources.NoWrite.
Proof.
  destruct (spanless_item_not_translated (fun _ => 0%Z)
              (fun _ => true) (fun _ => false)
              (fun _ => false) (String.eqb "Troll") string Samples.parseTag
              Samples.isParsed Some Samples.stripFirstSpan 2 8 4
              Samples.toggles
              {| Chat.message := [ {| item_type := "emoji"; item_text := "" |} ];
                 Chat.ytcAuthor := {| Chat.name := "Fan"; Chat.id := "UC2";
                                      Chat.authorTypes := [] |};
                 Chat.ytcTimestamp := "03:15 PM";
                 Chat.ytcMessageId := "m8";
                 Chat.showtime := 315 |} eq_refl) as [H | [H | H]].
  - exact H.
  - discriminate H.
  - discriminate H.
Defined.

(** ** The dummy event source *)

Section DummyFacts.

Import Chat.
Local Open Scope Z_scope.

(** X11.  For a time stamp of two pieces, the show time that [message]
    computes is ten times the first number plus the second (not sixty
    times): "01:00" and "00:10" get the same show time. *)
Theorem showtime_of_two_pieces (author msg a b : string) (x y : Z) :
  Text.hasChar ":" a = false -> Text.hasChar ":" b = false ->
  JSNumber.parseInt a = Some x -> JSNumber.parseInt b = Some y ->
  dummyShowtime (dummy author msg (a ++ String ":" b)) = Some (10 * x + y).
Proof.
  intros Ha Hb Hx Hy. simpl. unfold showtimeOf.
  rewrite (splitChar_app _ _ _ Ha), (splitChar_whole _ _ Hb).
  simpl. rewrite Hx, Hy. simpl. f_equal. lia.
Qed.

Lemma deliver_one {Data} (sub : nat) (subs : list nat) (data : Data) :
  ~ In sub subs ->
  List.filter (fun call => Nat.eqb (fst call) sub)
    (map (fun s => (s, data)) (subs ++ [sub])) = [(sub, data)].
Proof.
  intros Hnew. induction subs as [| s subs IH]; simpl.
  - now rewrite Nat.eqb_refl.
  - destruct (Nat.eqb s sub) eqn:E.
    + apply Nat.eqb_eq in E. subst s. exfalso. apply Hnew. now left.
    + apply IH. intros Hin. apply Hnew. now right.
Qed.


End DummyFacts.

(** Witness of X11. *)
Lemma showtime_of_two_pieces_witness :
  Chat.dummyShowtime (Chat.dummy "A" "hi" "03:16 PM") = Some 46%Z /\
  Chat.dummyShowtime (Chat.dummy "A" "hi" "01:00") = Some 10%Z /\
  Chat.dummyShowtime (Chat.dummy "A" "hi" "00:10") = Some 10%Z.
Proof.
  split; [| split].
  - apply (showtime_of_two_pieces "A" "hi" "03" "16 PM" 3 16); reflexivity.
  - apply (showtime_of_two_pieces "A" "hi" "01" "00" 1 0); reflexivity.
  - apply (showtime_of_two_pieces "A" "hi" "00" "10" 0 10); reflexivity.
Defined.


(** ** The handshake, beyond the retries *)

Section HandshakeMore.

Import Ytc YtcEnv.
Local Open Scope Z_scope.

Lemma step_portRegistered popout ev st :
  portRegistered st = true -> portRegistered (snd (step popout ev st)) = true.
Proof.
  intros Hreg. destruct ev as [type info | r |]; simpl.
  - unfold onWindowMessage. rewrite Hreg, andb_false_r. exact Hreg.
  - destruct r as [count | | | | success reason |]; simpl; try exact Hreg.
    destruct success; [reflexivity |].
    destruct (tryRegister st <? 3); exact Hreg.
  - unfold registerClient. destruct (frameInfo st); exact Hreg.
Qed.

Lemma after_portRegistered popout evs st :
  portRegistered st = true -> portRegistered (after popout evs st) = true.
Proof.
  unfold after. revert st. induction evs as [| ev evs IH]; intros st Hreg;
    simpl; [exact Hreg |].
  apply IH. now apply step_portRegistered.
Qed.

(** X13.  Once the port has accepted the registration, the source stays
    registered whatever happens next, and no message of the window makes
    it register again. *)
Theorem registered_for_good (popout : bool) (st : State) (reason : string)
  (evs : list Event) (type : string) (info : option FrameInfo) :
  let accepted :=
    snd (step popout (PortMessage (RegisterClientResponse true reason)) st) in
  portRegistered (after popout evs accepted) = true /\
  step popout (WindowMessage type info) (after popout evs accepted)
  = ([], after popout evs accepted).
Proof.
  intros accepted.
  assert (Hreg : portRegistered (after popout evs accepted) = true).
  { apply after_portRegistered. reflexivity. }
  split; [exact Hreg |].
  simpl. unfold onWindowMessage. now rewrite Hreg, andb_false_r.
Qed.

Lemma after_cons popout ev evs st :
  after popout (ev :: evs) st = after popout evs (snd (step popout ev st)).
Proof. reflexivity. Qed.

(** X14.  The count of registrations is not bounded by 3 when the window
    keeps sending [frameInfo]: while the port has not answered, each of
    [n] such messages posts one registration, [n] in all. *)
Theorem frameInfo_messages_register_each_time (info : FrameInfo) (n : nat) :
  effectsOf false (repeat (WindowMessage "frameInfo" (Some info)) n) initial
  = repeat (PostRegisterClient info) n /\
  tryRegister
    (after false (repeat (WindowMessage "frameInfo" (Some info)) n) initial)
  = Z.of_nat n.
Proof.
  assert (General : forall st,
    portRegistered st = false ->
    effectsOf false (repeat (WindowMessage "frameInfo" (Some info)) n) st
    = repeat (PostRegisterClient info) n /\
    tryRegister
      (after false (repeat (WindowMessage "frameInfo" (Some info)) n) st)
    = tryRegister st + Z.of_nat n).
  { induction n as [| n IH]; intros st Hst.
    - simpl. split; [reflexivity | lia].
    - cbn [repeat effectsOf]. rewrite after_cons.
      assert (Hstep : step false (WindowMessage "frameInfo" (Some info)) st
                      = ([PostRegisterClient info],
                         {| portRegistered := portRegistered st;
                            tryRegister := tryRegister st + 1;
                            frameInfo := Some info |})).
      { simpl. unfold onWindowMessage. rewrite Hst. reflexivity. }
      rewrite Hstep. cbn [fst snd].
      destruct (IH {| portRegistered := portRegistered st;
                      tryRegister := tryRegister st + 1;
                      frameInfo := Some info |} Hst) as [He Ht].
      rewrite He, Ht. cbn [tryRegister]. split; [reflexivity | lia]. }
  destruct (General initial eq_refl) as [He Ht]. split; [exact He |].
  rewrite Ht. reflexivity.
Qed.

(** X15.  A [frameInfo] message of the window that carries no frame
    information is logged and not counted, and it wipes the frame
    information the source had: a retry that was pending then logs too
    instead of registering. *)
Theorem frameInfo_without_info (st : State) :
  portRegistered st = false ->
  let st' := snd (step false (WindowMessage "frameInfo" None) st) in
  step false (WindowMessage "frameInfo" None) st
  = ([ConsoleError "frameInfo is null"], st') /\
  tryRegister st' = tryRegister st /\
  step false TimerFired st' = ([ConsoleError "frameInfo is null"], st').
Proof.
  intros Hst. simpl. unfold onWindowMessage. rewrite Hst. simpl.
  repeat split.
Qed.

(** X16.  When the port accepts the first registration there is one
    registration and no retry: in a pop-out right after the set-up, in
    a frame after the [frameInfo] message of the window. *)
Theorem handshake_accepted (tab frame : string) (info : FrameInfo) (fuel : nat) :
  (2 <= fuel)%nat ->
  ytcSource true tab frame accepting fuel []
  = ([PostRegisterClient {| tabId := JSNumber.parseInt tab;
                            frameId := JSNumber.parseInt frame |}],
     {| portRegistered := true; tryRegister := 1;
        frameInfo := Some {| tabId := JSNumber.parseInt tab;
                             frameId := JSNumber.parseInt frame |} |},
     []) /\
  ytcSource false tab frame accepting fuel [WindowMessage "frameInfo" (Some info)]
  = ([PostRegisterClient info],
     {| portRegistered := true; tryRegister := 1; frameInfo := Some info |},
     []).
Proof.
  intros Hfuel. destruct fuel as [| [| fuel]]; try lia.
  split.
  - unfold ytcSource, setUp. cbn. destruct fuel; reflexivity.
  - unfold ytcSource, setUp. cbn. destruct fuel; reflexivity.
Qed.

End HandshakeMore.

(** Witness of X15. *)
Lemma frameInfo_without_info_witness :
  Ytc.step false Ytc.TimerFired
    (snd (Ytc.step false (Ytc.WindowMessage "frameInfo" None)
            {| Ytc.portRegistered := false; Ytc.tryRegister := 1;
               Ytc.frameInfo := Some {| Ytc.tabId := Some 1%Z;
                                        Ytc.frameId := Some 0%Z |} |}))
  = ([Ytc.ConsoleError "frameInfo is null"],
     {| Ytc.portRegistered := false; Ytc.tryRegister := 1;
        Ytc.frameInfo := None |}).
Proof.
  apply (proj2 (proj2 (frameInfo_without_info
           {| Ytc.portRegistered := false; Ytc.tryRegister := 1;
              Ytc.frameInfo := Some {| Ytc.tabId := Some 1%Z;
                                       Ytc.frameId := Some 0%Z |} |}
           eq_refl))).
Defined.

(** Witness of X16. *)
Lemma handshake_accepted_witness :
  Ytc.ytcSource true "12" "3" YtcEnv.accepting 2 []
  = ([Ytc.PostRegisterClient {| Ytc.tabId := Some 12%Z; Ytc.frameId := Some 3%Z |}],
     {| Ytc.portRegistered := true; Ytc.tryRegister := 1;
        Ytc.frameInfo := Some {| Ytc.tabId := Some 12%Z;
                                 Ytc.frameId := Some 3%Z |} |},
     []).
Proof.
  apply (proj1 (handshake_accepted "12" "3"
                  {| Ytc.tabId := None; Ytc.frameId := None |} 2
                  (le_n 2))).
Defined.

(** ** Waiting for a live room: what the loop never does *)

Section RetryMore.

Import Mchad.

Lemma run_retry_none {videoLink retryInterval} fuel :
  run fuel (getLiveRoomsWithRetry videoLink retryInterval) [] = None.
Proof. destruct fuel; reflexivity. Qed.

Lemma run_retry_short {videoLink retryInterval} fuel rooms results :
  live rooms = [] -> (fuel < 3)%nat ->
  run fuel (getLiveRoomsWithRetry videoLink retryInterval) (rooms :: results)
  = None.
Proof.
  intros Hempty Hfuel. destruct rooms as [lv vd]. simpl in Hempty. subst lv.
  destruct fuel as [| [| [| fuel]]]; try lia; reflexivity.
Qed.

Lemma run_retry_found_inv {videoLink retryInterval} fuel rooms results obs r :
  live rooms <> [] ->
  run fuel (getLiveRoomsWithRetry videoLink retryInterval) (rooms :: results)
  = Some (obs, r) ->
  obs = [Resolved videoLink] /\ r = live rooms.
Proof.
  intros Hfound Hrun. destruct fuel as [| [| fuel]].
  - discriminate Hrun.
  - destruct rooms as [lv vd]. simpl in Hfound.
    destruct lv; [contradiction | discriminate Hrun].
  - rewrite run_retry_found in Hrun by assumption.
    injection Hrun as <- <-. now split.
Qed.

Lemma run_some_shape videoLink retryInterval results :
  forall fuel obs rooms,
    run fuel (getLiveRoomsWithRetry videoLink retryInterval) results
    = Some (obs, rooms) ->
    exists empties found later,
      results = empties ++ found :: later /\
      Forall (fun r => live r = []) empties /\
      live found <> [] /\ rooms = live found /\
      obs = waiting videoLink retryInterval (length empties)
            ++ [Resolved videoLink].
Proof.
  induction results as [| r results IH]; intros fuel obs rooms Hrun.
  - now rewrite run_retry_none in Hrun.
  - destruct (live r) as [| room others] eqn:Hlive.
    + destruct fuel as [| [| [| fuel]]];
        try (rewrite run_retry_short in Hrun by (assumption || lia);
             discriminate Hrun).
      rewrite run_retry_empty in Hrun by assumption.
      destruct (run fuel (getLiveRoomsWithRetry videoLink retryInterval) results)
        as [[obs' rooms'] |] eqn:Hrest; [| discriminate Hrun].
      injection Hrun as <- <-.
      destruct (IH _ _ _ Hrest)
        as [empties [found [later [-> [Hall [Hfound [-> ->]]]]]]].
      exists (r :: empties), found, later. repeat split; auto.
    + assert (Hfound : live r <> []) by (rewrite Hlive; discriminate).
      destruct (run_retry_found_inv _ _ _ _ _ Hfound Hrun) as [-> ->].
      exists [], r, results. repeat split; auto.
Qed.

(** X17.  Whatever the resolutions are and however long the loop runs:
    when [getLiveRoomsWithRetry] returns, the list it returns is not
    empty, it is the live list of the first resolution that has a live
    room, and the loop has slept once, [retryInterval] seconds, after
    each resolution before that one and never after it. *)
Theorem retry_returns_first_live (videoLink : string) (retryInterval : Z)
  (results : list Rooms) (fuel : nat) (obs : list Observed)
  (rooms : list MCHADLiveRoom) :
  run fuel (getLiveRoomsWithRetry videoLink retryInterval) results
  = Some (obs, rooms) ->
  rooms <> [] /\
  exists empties found later,
    results = empties ++ found :: later /\
    Forall (fun r => live r = []) empties /\
    rooms = live found /\
    obs = waiting videoLink retryInterval (length empties)
          ++ [Resolved videoLink].
Proof.
  intros Hrun.
  destruct (run_some_shape _ _ _ _ _ _ Hrun)
    as [empties [found [later [Hres [Hall [Hfound [Hrooms Hobs]]]]]]].
  split; [now rewrite Hrooms |].
  now exists empties, found, later.
Qed.

(** X18.  As long as no resolution finds a live room the loop does not
    return, however long it runs: there is no bound on the retries. *)
Theorem retry_never_gives_up (videoLink : string) (retryInterval : Z)
  (results : list Rooms) (fuel : nat) :
  Forall (fun r => live r = []) results ->
  run fuel (getLiveRoomsWithRetry videoLink retryInterval) results = None.
Proof.
  intros Hall.
  destruct (run fuel (getLiveRoomsWithRetry videoLink retryInterval) results)
    as [[obs rooms] |] eqn:Hrun; [exfalso | reflexivity].
  destruct (run_some_shape _ _ _ _ _ _ Hrun)
    as [empties [found [later [Hres [_ [Hfound _]]]]]].
  rewrite List.Forall_forall in Hall. apply Hfound, Hall.
  rewrite Hres. apply in_or_app. right. now left.
Qed.

End RetryMore.

(** Witness of X17. *)
Lemma retry_returns_first_live_witness :
  [Samples.liveRoom] <> [] /\
  exists empties found later,
    [Samples.noLive; Samples.oneLive; Samples.noLive]
    = empties ++ found :: later /\
    Forall (fun r => Mchad.live r = []) empties /\
    [Samples.liveRoom] = Mchad.live found /\
    [Mchad.Resolved "YT_abc"; Mchad.Slept 30000; Mchad.Resolved "YT_abc"]
    = Mchad.waiting "YT_abc" 30 (length empties) ++ [Mchad.Resolved "YT_abc"].
Proof.
  apply (retry_returns_first_live "YT_abc" 30
           [Samples.noLive; Samples.oneLive; Samples.noLive] 5).
  reflexivity.
Defined.

(** Witness of X18. *)
Lemma retry_never_gives_up_witness :
  Mchad.run 1000 (Mchad.getLiveRoomsWithRetry "YT_abc" 30)
    [Samples.noLive; Samples.noLive; Samples.noLive] = None.
Proof.
  apply (retry_never_gives_up "YT_abc" 30
           [Samples.noLive; Samples.noLive; Samples.noLive] 1000).
  repeat constructor.
Defined.

(** ** The language of a room: where the code comes from *)

Section LanguageMore.

Variable Language : Type.
Variable code : Language -> string.
Variable languagesInfo : list Language.
Variable isLangMatch : string -> Language -> bool.

Local Abbreviation getRoomTagLanguageCode :=
  (Mchad.getRoomTagLanguageCode Language code languagesInfo isLangMatch).

(** X19.  A language code that [getRoomTagLanguageCode] returns is the
    code of a language of the table that matches one of the tokens of
    the tag; with an empty table the result is [null]. *)
Theorem language_code_is_of_a_match (tag c : string) :
  getRoomTagLanguageCode tag = Some c ->
  exists token lang,
    In token (JS.splitWhiteSpace tag) /\ In lang languagesInfo /\
    isLangMatch token lang = true /\ code lang = c.
Proof.
  unfold Mchad.getRoomTagLanguageCode. cbv zeta.
  destruct (nth_error _ _) as [lang |] eqn:Hnth; [| discriminate].
  intros H. injection H as <-.
  apply nth_error_In, in_concat in Hnth.
  destruct Hnth as [langs [Hlangs Hlang]].
  apply in_map_iff in Hlangs. destruct Hlangs as [token [<- Htoken]].
  unfold Mchad.possibleLanguages in Hlang. apply filter_In in Hlang.
  destruct Hlang as [Hin Hmatch].
  now exists token, lang.
Qed.

End LanguageMore.

(** Witness of X19. *)
Lemma language_code_is_of_a_match_witness :
  exists token lang,
    In token (JS.splitWhiteSpace " en  jp x") /\ In lang Samples.languages /\
    String.eqb token lang = true /\ lang = "jp"%string.
Proof.
  apply (language_code_is_of_a_match string (fun c => c) Samples.languages
           String.eqb " en  jp x" "jp").
  reflexivity.
Defined.

(** X20.  The tokens that [split (/\s+/g)] hands to the language match
    hold no white space, and there is always at least one token (the
    empty tag gives one empty token). *)
Theorem tokens_hold_no_white_space (tag : string) :
  JS.splitWhiteSpace tag <> [] /\
  Forall (fun token => Text.anyChar JS.isWhiteSpace token = false)
    (JS.splitWhiteSpace tag).
Proof.
  unfold JS.splitWhiteSpace.
  assert (General : forall inrun,
    JS.splitWhiteSpaceFrom inrun tag <> [] /\
    Forall (fun token => Text.anyChar JS.isWhiteSpace token = false)
      (JS.splitWhiteSpaceFrom inrun tag)).
  { induction tag as [| c r IH]; intros inrun; simpl.
    - split; [discriminate | repeat constructor].
    - destruct (JS.isWhiteSpace c) eqn:Hc.
      + destruct inrun; [apply IH |].
        split; [discriminate |]. constructor; [reflexivity | apply IH].
      + destruct (IH false) as [Hne Hall].
        destruct (JS.splitWhiteSpaceFrom false r) as [| p ps];
          [contradiction |].
        split; [discriminate |].
        inversion Hall as [| ? ? Hp Hps]; subst.
        constructor; [| assumption]. simpl. now rewrite Hc. }
  apply General.
Qed.

(** ** Archive time stamps, piece by piece *)

Section TimeFacts.

Import Mchad JSNumber.
Local Open Scope Z_scope.

(** X21.  For an elapsed time of three pieces, hours, minutes and
    seconds, the recomputed integer is [3600 h + 60 m + s]; with only two
    pieces the first counts as hours and the second as minutes.  The
    pieces are taken small enough for every product and sum to stay
    within [2 ^ 53], where the arithmetic of Numbers is exact. *)
Theorem archiveTimeToInt_of_pieces (a b c : string) (h m s : Z) :
  Text.hasChar ":" a = false -> Text.hasChar ":" b = false ->
  Text.hasChar ":" c = false ->
  parseInt a = Some h -> parseInt b = Some m -> parseInt c = Some s ->
  3600 * Z.abs h + 60 * Z.abs m + Z.abs s <= 2 ^ 53 ->
  eqNumber (archiveTimeToInt (a ++ String ":" (b ++ String ":" c)))
    (Num (inject_Z (3600 * h + 60 * m + s))) /\
  eqNumber (archiveTimeToInt (a ++ String ":" b))
    (Num (inject_Z (3600 * h + 60 * m))).
Proof.
  intros Ha Hb Hc Hh Hm Hs _. unfold archiveTimeToInt. split.
  - rewrite (splitChar_app _ _ _ Ha), (splitChar_app _ _ _ Hb),
      (splitChar_whole _ _ Hc).
    simpl. rewrite Hh, Hm, Hs. simpl. unfold Qeq. simpl. lia.
  - rewrite (splitChar_app _ _ _ Ha), (splitChar_whole _ _ Hb).
    simpl. rewrite Hh, Hm. simpl. unfold Qeq. simpl. lia.
Qed.

Lemma fold_add_isNum (l : list Number) (a : Number) :
  isNum (fold_left add l a) -> isNum a /\ Forall isNum l.
Proof.
  revert a. induction l as [| x l IH]; intros a H; simpl in *.
  - now split.
  - destruct (IH _ H) as [Hax Hl].
    destruct a, x; simpl in Hax; try contradiction.
    split; [exact I |]. constructor; [exact I | assumption].
Qed.

Lemma scaled_isNum (f : string -> Number) (pieces : list string) (i : Z) :
  Forall isNum (mapIndexFrom (fun t j => mul t (pow 60 (2 - j))) i
                  (map f pieces)) ->
  Forall (fun piece => isNum (f piece)) pieces.
Proof.
  revert i. induction pieces as [| p pieces IH]; intros i H; simpl in *.
  - constructor.
  - inversion H as [| ? ? Hp Hrest]; subst. constructor.
    + destruct (f p); [contradiction | exact I].
    + now apply (IH (i + 1)).
Qed.

Lemma archiveTimeToInt_isNum (s : string) :
  isNum (archiveTimeToInt s) ->
  Forall (fun piece => parseInt piece <> None) (JS.splitChar ":" s).
Proof.
  unfold archiveTimeToInt. intros H.
  assert (Hall : Forall (fun piece => isNum (ofInt (parseInt piece)))
                   (JS.splitChar ":" s)).
  { apply (scaled_isNum _ _ 0).
    destruct (mapIndexFrom _ 0 (map _ (JS.splitChar ":" s))) as [| x l];
      [constructor |].
    destruct (fold_add_isNum _ _ H) as [Hx Hl]. now constructor. }
  eapply List.Forall_impl; [| exact Hall].
  intros piece Hp Hnone. cbv beta in Hp. rewrite Hnone in Hp. exact Hp.
Qed.

(** X22.  An entry that [getArchive] keeps has an elapsed time of which
    every piece between colons starts with an integer: one piece that
    [parseInt] cannot read (an empty piece, say) makes the whole sum
    [NaN], and the entry is dropped. *)
Theorem kept_entries_have_readable_times (script : list Message) (e : Timed) :
  In e (getScript script) ->
  Forall (fun piece => parseInt piece <> None)
    (JS.splitChar ":" (timestamp (tl e))).
Proof.
  intros Hin. unfold getScript in Hin.
  apply (Permutation_in _ (sortBy_perm _ _ _)) in Hin.
  apply filter_In in Hin. destruct Hin as [Hin Hge].
  apply in_map_iff in Hin. destruct Hin as [m [<- _]].
  apply archiveTimeToInt_isNum. now apply geZero_isNum.
Qed.

End TimeFacts.

(** Witness of X21. *)
Lemma archiveTimeToInt_of_pieces_witness :
  Mchad.eqNumber (Mchad.archiveTimeToInt "01:02:03")
    (JSNumber.Num (inject_Z 3723)) /\
  Mchad.eqNumber (Mchad.archiveTimeToInt "01:02")
    (JSNumber.Num (inject_Z 3720)).
Proof.
  apply (archiveTimeToInt_of_pieces "01" "02" "03" 1 2 3);
    first [reflexivity | vm_compute; discriminate].
Defined.

(** Witness of X22. *)
Lemma kept_entries_have_readable_times_witness :
  Forall (fun piece => JSNumber.parseInt piece <> None)
    (JS.splitChar ":" "00:00:05").
Proof.
  apply (kept_entries_have_readable_times
           [Samples.setTimestamp Samples.relayMessage "00:00:05"]
           (Mchad.addUnix (Samples.setTimestamp Samples.relayMessage "00:00:05"))).
  left. reflexivity.
Defined.

(** ** The messages of an archive room *)

Section ArchiveFacts.

Import Mchad.
Local Open Scope Z_scope.

Variable Language : Type.
Variable code : Language -> string.
Variable languagesInfo : list Language.
Variable isLangMatch : string -> Language -> bool.
Variable mchadFlag : Z.
Variable liveUnixToTimestamp : Z -> string.

Local Abbreviation getArchiveFromRoom :=
  (Mchad.getArchiveFromRoom Language code languagesInfo isLangMatch mchadFlag).

Local Abbreviation getRoomTranslations :=
  (Mchad.getRoomTranslations Language code languagesInfo isLangMatch mchadFlag
     liveUnixToTimestamp).

Local Abbreviation constructAll :=
  (Mchad.constructAll Language code languagesInfo isLangMatch mchadFlag
     liveUnixToTimestamp).

(** A field of the messages of [mapM toMessage script] that does not
    depend on the counter is that field line by line. *)
Lemma mapM_field {B} (f : MCHADTL -> Counter Message) (g : Message -> B)
  (h : MCHADTL -> B) (script : list MCHADTL) :
  (forall data c, g (fst (f data c)) = h data) ->
  forall c, map g (fst (mapM f script c)) = map h script.
Proof.
  intros Hf. induction script as [| data script IH]; intros c; [reflexivity |].
  cbn [mapM]. unfold mbind, counter_bind, mret, counter_ret.
  specialize (Hf data c). destruct (f data c) as [m c1].
  specialize (IH c1). destruct (mapM f script c1) as [ms c2].
  cbn [fst map] in *. now rewrite Hf, IH.
Qed.

(** X23.  [getArchiveFromRoom] gives one message for each line of the
    script, in the order of the script: the text is the text of the
    line, the author is the room, and the offset is the time of the
    line less the first time of the script (negative for a line before
    the stream-start marker). *)
Theorem getArchiveFromRoom_line_by_line (room : MCHADArchiveRoom)
  (script : list MCHADTL) (c : Z) :
  map text (fst (getArchiveFromRoom room script c)) = map Stext script /\
  map timestampMs (fst (getArchiveFromRoom room script c))
  = map (fun line => Stime line - getFirstTime script) script /\
  map author (fst (getArchiveFromRoom room script c))
  = map (fun _ => Room room) script /\
  map authorId (fst (getArchiveFromRoom room script c))
  = map (fun _ => Room room) script.
Proof.
  unfold Mchad.getArchiveFromRoom.
  repeat split; apply mapM_field; reflexivity.
Qed.

(** X24.  The counter moves by one for each message built and by
    nothing else: after any constructions from the counter [c], the
    message at position [k] (from 0) has the id [c + k + 1], and the
    counter is [c] plus the number of messages. *)
Theorem ids_have_no_gaps (ks : list Construction) (c : Z) (k : nat)
  (m : Message) :
  nth_error (fst (constructAll ks c)) k = Some m ->
  messageId m = IdNumber (c + Z.of_nat k + 1) /\
  snd (constructAll ks c) = c + Z.of_nat (length (fst (constructAll ks c))).
Proof.
  intros Hk.
  destruct (constructAll_numbers Language code languagesInfo isLangMatch
              mchadFlag liveUnixToTimestamp ks c) as [Hids Hc].
  split; [| exact Hc].
  apply (map_nth_error messageId) in Hk. rewrite Hids in Hk.
  unfold idsFrom in Hk. rewrite !nth_error_map in Hk.
  destruct (nth_error (seq 1 (length (fst (constructAll ks c)))) k)
    as [i |] eqn:Hi; [| discriminate Hk].
  simpl in Hk. injection Hk as Hk. rewrite <- Hk.
  assert (Hlt : (k < length (seq 1 (length (fst (constructAll ks c)))))%nat).
  { apply nth_error_Some. congruence. }
  rewrite length_seq in Hlt.
  rewrite (nth_error_nth' _ 0%nat) in Hi by now rewrite length_seq.
  rewrite seq_nth in Hi by assumption. injection Hi as <-.
  f_equal. lia.
Qed.

(** X25.  A push of a live room becomes a message exactly when relay
    translations are enabled and the push is there with the flag
    [insert] or [update]; any other push builds nothing and leaves the
    counter alone. *)
Theorem getRoomTranslations_emits_iff (enableMchadTLs : bool)
  (room : MCHADLiveRoom) (data : option MCHADStreamItem) (c : Z) :
  ((exists m, fst (getRoomTranslations enableMchadTLs room data c) = Some m) <->
   enableMchadTLs = true /\
   exists d, data = Some d /\ (flag d = "insert" \/ flag d = "update")%string) /\
  (fst (getRoomTranslations enableMchadTLs room data c) = None ->
   snd (getRoomTranslations enableMchadTLs room data c) = c).
Proof.
  unfold Mchad.getRoomTranslations.
  destruct enableMchadTLs; simpl.
  - destruct data as [d |]; simpl.
    + destruct (String.eqb (flag d) "insert") eqn:E1; simpl.
      * apply String.eqb_eq in E1. split; [| discriminate].
        split; [intros _ | intros _; eauto].
        split; [reflexivity |]. exists d. split; [reflexivity | now left].
      * destruct (String.eqb (flag d) "update") eqn:E2; simpl.
        -- apply String.eqb_eq in E2. split; [| discriminate].
           split; [intros _ | intros _; eauto].
           split; [reflexivity |]. exists d. split; [reflexivity | now right].
        -- apply String.eqb_neq in E1, E2. split; [| reflexivity].
           split; [intros [m H]; discriminate H |].
           intros [_ [d' [Hd' [H | H]]]]; injection Hd' as <-; contradiction.
    + split; [| reflexivity].
      split; [intros [m H]; discriminate H |].
      intros [_ [d [H _]]]. discriminate H.
  - split; [| reflexivity].
    split; [intros [m H]; discriminate H |].
    intros [H _]. discriminate H.
Qed.

End ArchiveFacts.

(** Witness of X24. *)
Lemma ids_have_no_gaps_witness :
  messageId
    {| text := "hello";
       messageArray := [ {| item_type := "text"; item_text := "hello" |} ];
       author := "Translator"; authorId := "Translator";
       langCode := Some "en"%string; messageId := IdNumber 9;
       timestamp := "00:00:00"; types := 64; timestampMs := 5 |}
  = IdNumber (7 + Z.of_nat 1 + 1)%Z /\
  snd (Mchad.constructAll string (fun c => c) Samples.languages String.eqb 64
         (fun _ => "3:15 PM"%string)
         [Mchad.FromArchive Samples.archiveRoom Samples.script] 7%Z)
  = (7 + Z.of_nat
           (length
              (fst (Mchad.constructAll string (fun c => c) Samples.languages
                      String.eqb 64 (fun _ => "3:15 PM"%string)
                      [Mchad.FromArchive Samples.archiveRoom Samples.script]
                      7%Z))))%Z.
Proof.
  apply (ids_have_no_gaps string (fun c => c) Samples.languages String.eqb 64
           (fun _ => "3:15 PM"%string)
           [Mchad.FromArchive Samples.archiveRoom Samples.script] 7%Z 1%nat).
  reflexivity.
Defined.

(** ** Registering the authors of the archive scripts *)

Section RegisterFacts.

Import Mchad.

Lemma register_one_get (users : gmap string bool) (a0 a : string) :
  mchadUsersGet (mchadUsersSet a0 (mchadUsersGet users a0) users) a
  = mchadUsersGet users a.
Proof.
  unfold mchadUsersGet at 1 3, mchadUsersSet.
  destruct (decide (a0 = a)) as [-> | Hne].
  - rewrite lookup_insert_eq. reflexivity.
  - now rewrite lookup_insert_ne.
Qed.

Lemma register_one_key (users : gmap string bool) (a0 a : string) :
  is_Some (mchadUsersSet a0 (mchadUsersGet users a0) users !! a) <->
  is_Some (users !! a) \/ a0 = a.
Proof.
  unfold mchadUsersSet.
  destruct (decide (a0 = a)) as [-> | Hne].
  - rewrite lookup_insert_eq. split; [now right | eauto].
  - rewrite lookup_insert_ne by assumption. tauto.
Qed.

(** X26.  Registering the authors of the scripts changes the flag of
    nobody: every author reads as before.  What it adds is the keys: an
    author is a key afterwards exactly when it was one before or is the
    author of the first entry of one of the scripts. *)
Theorem registerAuthors_keeps_flags (scripts : list (list Timed))
  (users : gmap string bool) (a : string) :
  mchadUsersGet (registerAuthors scripts users) a = mchadUsersGet users a /\
  (is_Some (registerAuthors scripts users !! a) <->
   is_Some (users !! a) \/
   exists script, In script scripts /\ getScriptAuthor script = Some a).
Proof.
  unfold registerAuthors. revert users.
  induction scripts as [| script scripts IH]; intros users; simpl.
  - split; [reflexivity |]. split; [now left |].
    intros [H | [script [[] _]]]. exact H.
  - destruct (IH (match getScriptAuthor script with
                  | Some a0 => mchadUsersSet a0 (mchadUsersGet users a0) users
                  | None => users
                  end)) as [Hget Hkey].
    split.
    + rewrite Hget. destruct (getScriptAuthor script);
        [apply register_one_get | reflexivity].
    + rewrite Hkey. destruct (getScriptAuthor script) as [a0 |] eqn:Ha0.
      * rewrite register_one_key. split.
        -- intros [[H | ->] | [s [Hs Hsa]]]; [now left | right | right].
           ++ exists script. split; [now left | assumption].
           ++ exists s. split; [now right | assumption].
        -- intros [H | [s [[<- | Hs] Hsa]]].
           ++ left. now left.
           ++ left. right. congruence.
           ++ right. now exists s.
      * split.
        -- intros [H | [s [Hs Hsa]]]; [now left | right].
           exists s. split; [now right | assumption].
        -- intros [H | [s [[<- | Hs] Hsa]]]; [now left | congruence | right].
           now exists s.
Qed.

End RegisterFacts.

(** ** The display time of a live message *)

Section LiveTimeFacts.

Import LiveTime.

Lemma digit_is_not_space d : isDigit d = true -> Ascii.eqb d " " = false.
Proof.
  intros Hd. destruct (Ascii.eqb d " ") eqn:E; [| reflexivity].
  apply Ascii.eqb_eq in E. subst d. discriminate Hd.
Qed.

Lemma matchesHere_fourth c0 c1 c2 c3 rest :
  Ascii.eqb c3 " " = false ->
  matchesHere (String c0 (String c1 (String c2 (String c3 rest)))) = false.
Proof. intros H. simpl. rewrite H. now rewrite andb_false_r. Qed.

Lemma no_match_in_front (pre post : string) d1 d2 :
  Text.hasChar " " pre = false -> isDigit d1 = true -> isDigit d2 = true ->
  forall c, Ascii.eqb c " " = false ->
    matchesHere
      (String c (pre ++ String ":" (String d1 (String d2 (String " " post)))))
    = false.
Proof.
  intros Hpre Hd1 Hd2 c Hc.
  unfold Text.hasChar in Hpre.
  destruct pre as [| p1 [| p2 [| p3 pre]]]; simpl in Hpre;
    rewrite ?append_cons, ?append_empty_l.
  - apply matchesHere_fourth. now apply digit_is_not_space.
  - apply matchesHere_fourth. now apply digit_is_not_space.
  - apply matchesHere_fourth. reflexivity.
  - apply matchesHere_fourth.
    repeat (apply orb_false_iff in Hpre; destruct Hpre as [? Hpre]).
    now rewrite Ascii.eqb_sym.
Qed.

(** X27.  [removeSeconds] takes the seconds out of a time of the form
    hours, minutes, seconds, space, rest (no space before the seconds):
    the colon and the two digits before that space go, the rest stays.
    A string in which no colon is followed by two digits and a space
    comes back as it is. *)
Theorem removeSeconds_spec (pre post time : string) (d1 d2 : ascii) :
  (Text.hasChar " " pre = false -> isDigit d1 = true -> isDigit d2 = true ->
   removeSeconds
     (pre ++ String ":" (String d1 (String d2 (String " " post))))
   = (pre ++ String " " post)%string) /\
  (hasMatch time = false -> removeSeconds time = time).
Proof.
  split.
  - intros Hpre Hd1 Hd2. induction pre as [| c pre IH].
    + rewrite !append_empty_l. simpl. now rewrite Hd1, Hd2.
    + unfold Text.hasChar in Hpre. simpl in Hpre.
      apply orb_false_iff in Hpre. destruct Hpre as [Hc Hpre].
      rewrite !append_cons. cbn [removeSeconds].
      rewrite (no_match_in_front _ _ _ _ Hpre Hd1 Hd2)
        by now rewrite Ascii.eqb_sym.
      f_equal. now apply IH.
  - intros Hno. induction time as [| c time IH]; [reflexivity |].
    cbn [hasMatch] in Hno. apply orb_false_iff in Hno.
    destruct Hno as [Hhere Hrest].
    cbn [removeSeconds]. rewrite Hhere. f_equal. now apply IH.
Qed.

End LiveTimeFacts.

(** Witness of X27. *)
Lemma removeSeconds_spec_witness :
  LiveTime.removeSeconds "3:15:07 PM" = "3:15 PM"%string /\
  LiveTime.removeSeconds "15:07" = "15:07"%string.
Proof.
  split.
  - apply (proj1 (removeSeconds_spec "3:15" "PM" "" "0" "7")); reflexivity.
  - apply (proj2 (removeSeconds_spec "" "" "15:07" "0" "0")). reflexivity.
Defined.

(** ** The relay stores before a teardown *)

Section FlowFacts.

Import Stores.

(** X28.  While [combineStores] is subscribed and both start functions
    have subscribed to their rooms, a push of a room reaches the
    combined store exactly when the room is one of the subscribed rooms
    and the subscriber lets the value through (relay translations
    enabled, author not suppressed, value not [null]); it is then stored
    once.  Anything else leaves the combined store alone. *)
Theorem push_reaches_combined (archiveRooms liveRooms : list nat)
  (enableMchadTLs : bool) (mchadUsers : gmap string bool) (which : Which)
  (room : nat) (v : option RelayItem) :
  emitted
    (push enableMchadTLs mchadUsers which room v
       (settle Live liveRooms
          (settle Archive archiveRooms (combineStores start))))
  = match roomSubscriber enableMchadTLs mchadUsers v with
    | Some item =>
        if existsb (Nat.eqb room)
             (match which with Archive => archiveRooms | Live => liveRooms end)
        then [Some item] else []
    | None => []
    end.
Proof.
  unfold push. destruct which; simpl.
  - destruct (existsb (Nat.eqb room) archiveRooms);
      destruct (roomSubscriber enableMchadTLs mchadUsers v); reflexivity.
  - destruct (existsb (Nat.eqb room) liveRooms);
      destruct (roomSubscriber enableMchadTLs mchadUsers v); reflexivity.
Qed.

End FlowFacts.
